(** * Financial ledger API: a shallow embedding of src/index.js

    The Express handlers of [src/index.js] are modelled as programs in a
    small free monad of SQL statements ([prog]), mirroring the
    [await client.query(...)] calls of the source one by one.  The
    PostgreSQL store is modelled as the three relations of the schema in
    the README ([accounts], [transactions], [ledger_entries]), the
    non-transactional SERIAL counters, and per-connection sessions that
    keep a redo log of their uncommitted writes (READ COMMITTED: every
    statement sees the committed relations plus its own writes).

    Amounts: the columns are NUMERIC(14,2), so stored amounts are integer
    cents ([Z]).  Request numbers are modelled by their decimal literal
    ([dec]); the JavaScript builtins [parseInt(_, 10)], [parseFloat] and
    [String(number)] are left abstract (the class [JsBuiltins]), so the
    theorems hold for every implementation of them. *)

From Stdlib Require Import ZArith String Ascii List Bool Lia Permutation Sorted.
Import ListNotations.
Open Scope Z_scope.

(* ------------------------------------------------------------------ *)
(** ** JavaScript values of a parsed JSON request body *)

(** A decimal literal [mant * 10^-scale]. *)
Record dec := Dec { mant : Z; scale : nat }.

(** Field values that [express.json()] places in [req.body] (JSON
    objects and arrays are not modelled); a missing field is
    [JUndefined]. *)
Inductive jsval :=
| JUndefined
| JNull
| JBool (b : bool)
| JNum (d : dec)
| JStr (s : string).

(** JavaScript truthiness, as tested by [!x]. *)
Definition truthy (v : jsval) : bool :=
  match v with
  | JUndefined | JNull => false
  | JBool b => b
  | JNum d => negb (mant d =? 0)
  | JStr EmptyString => false
  | JStr _ => true
  end.

(** [description || null] *)
Definition or_null (v : jsval) : jsval := if truthy v then v else JNull.

(** The JavaScript builtins the handlers call; [None] is [NaN]. *)
Class JsBuiltins := {
  parseInt10 : jsval -> option Z;          (* parseInt(v, 10) *)
  parseFloat : jsval -> option dec;        (* parseFloat(v) *)
  numberToString : dec -> string           (* String(n), used by pg *)
}.

(* ------------------------------------------------------------------ *)
(** ** The relations *)

Inductive entry_type := Debit | Credit.
Inductive tx_type := TDeposit | TWithdrawal | TTransfer.
Inductive txn_status := Pending | Completed | Failed.

(** accounts(id, user_id, type, currency, status): no balance column. *)
Record account := {
  acc_id : Z;
  acc_user : string;
  acc_type : string;
  acc_currency : string;
  acc_status : string
}.

(** transactions(id, type, amount, currency, source_account_id,
    destination_account_id, status, description) *)
Record txn := {
  tx_id : Z;
  tx_kind : tx_type;
  tx_amount : Z;
  tx_currency : string;
  tx_source : option Z;
  tx_dest : option Z;
  tx_status : txn_status;
  tx_description : jsval
}.

(** ledger_entries(id, transaction_id, account_id, entry_type, amount) *)
Record ledger_entry := {
  le_id : Z;
  le_tx : Z;
  le_account : Z;
  le_type : entry_type;
  le_amount : Z
}.

Record tables := {
  accounts : list account;
  transactions : list txn;
  ledger_entries : list ledger_entry
}.

(** The database: the relations and the SERIAL counters (the next value
    of each sequence; [nextval] is never rolled back). *)
Record db := {
  tbl : tables;
  seq_tx : Z;
  seq_entry : Z
}.

(* ------------------------------------------------------------------ *)
(** ** Column types *)

Inductive sql_error :=
| NumericFieldOverflow | StringTooLong | NotNullViolation
(** 22003: a parameter outside the range of INTEGER *)
| NumericValueOutOfRange.

(** Input of a decimal into NUMERIC(14,2): rounded half away from zero
    to 2 fractional digits, error when 14 digits do not suffice. *)
Definition round_cents (d : dec) : Z :=
  let p := 10 ^ Z.of_nat (scale d) in
  Z.sgn (mant d) * ((Z.abs (mant d) * 200 + p) / (2 * p)).

Definition to_numeric_14_2 (d : dec) : option Z :=
  let c := round_cents d in
  if Z.abs c <? 10 ^ 14 then Some c else None.

Section Columns.
Context `{JsBuiltins}.

(** node-postgres serialisation of a parameter to text ([null] and
    [undefined] become SQL NULL). *)
Definition pg_text (v : jsval) : option string :=
  match v with
  | JUndefined | JNull => None
  | JBool true => Some "true"%string
  | JBool false => Some "false"%string
  | JNum d => Some (numberToString d)
  | JStr s => Some s
  end.

(** A NOT NULL VARCHAR(n) column. *)
Definition to_varchar (n : nat) (v : jsval) : sql_error + string :=
  match pg_text v with
  | None => inl NotNullViolation
  | Some s => if (String.length s <=? n)%nat then inr s else inl StringTooLong
  end.

End Columns.

(* ------------------------------------------------------------------ *)
(** ** SQL statements issued by the handlers *)

Inductive sql :=
| Begin
| Commit
| Rollback
(** SELECT id FROM accounts WHERE id = ANY($1) (or [id = $1]) *)
| SelectAccountIds (ids : list Z)
(** SELECT id, user_id, type, currency, status FROM accounts WHERE id = $1 *)
| SelectAccount (id : Z)
(** INSERT INTO transactions (...) VALUES (...) RETURNING id *)
| InsertTransaction (kind : tx_type) (amount : dec) (currency : jsval)
    (src dst : option Z) (st : txn_status) (descr : jsval)
(** INSERT INTO ledger_entries (transaction_id, account_id, entry_type,
    amount) VALUES ..., one tuple per row *)
| InsertEntries (rows : list (Z * Z * entry_type * dec))
(** SELECT COALESCE(SUM(CASE ...)), 0) FROM ledger_entries WHERE account_id = $1 *)
| SumBalance (acc : Z)
(** UPDATE transactions SET status = $2 WHERE id = $1 *)
| SetStatus (tid : Z) (st : txn_status).

Inductive qresult :=
| RNone
| RIds (ids : list Z)
| RAccounts (rows : list account)
| RId (id : Z)
| RBalance (cents : Z).

Definition rows_of (r : qresult) : list Z :=
  match r with RIds l => l | _ => [] end.
Definition accounts_of (r : qresult) : list account :=
  match r with RAccounts l => l | _ => [] end.
Definition id_of (r : qresult) : Z :=
  match r with RId i => i | _ => 0 end.
Definition balance_of (r : qresult) : Z :=
  match r with RBalance c => c | _ => 0 end.

(* ------------------------------------------------------------------ *)
(** ** Store semantics *)

(** A write of an open transaction. *)
Inductive write :=
| WInsTx (t : txn)
| WInsEntries (es : list ledger_entry)
| WSetStatus (tid : Z) (st : txn_status).

Definition set_status (tid : Z) (st : txn_status) (t : txn) : txn :=
  if tx_id t =? tid then
    {| tx_id := tx_id t; tx_kind := tx_kind t; tx_amount := tx_amount t;
       tx_currency := tx_currency t; tx_source := tx_source t;
       tx_dest := tx_dest t; tx_status := st;
       tx_description := tx_description t |}
  else t.

Definition apply_write (t : tables) (w : write) : tables :=
  match w with
  | WInsTx x =>
      {| accounts := accounts t; transactions := transactions t ++ [x];
         ledger_entries := ledger_entries t |}
  | WInsEntries es =>
      {| accounts := accounts t; transactions := transactions t;
         ledger_entries := ledger_entries t ++ es |}
  | WSetStatus tid st =>
      {| accounts := accounts t;
         transactions := map (set_status tid st) (transactions t);
         ledger_entries := ledger_entries t |}
  end.

Definition apply_log (t : tables) (log : list write) : tables :=
  fold_left apply_write log t.

(** A connection: [None] outside a transaction (autocommit), [Some log]
    inside one, [log] being its uncommitted writes in order. *)
Definition session := option (list write).

Definition visible (d : db) (s : session) : tables :=
  match s with None => tbl d | Some log => apply_log (tbl d) log end.

(** Perform a write: at once in autocommit mode, logged otherwise. *)
Definition do_write (d : db) (s : session) (w : write) : db * session :=
  match s with
  | None => ({| tbl := apply_write (tbl d) w; seq_tx := seq_tx d;
                seq_entry := seq_entry d |}, None)
  | Some log => (d, Some (log ++ [w]))
  end.

(** [Σ credit − Σ debit] as the CASE expression of the SUM query computes
    it, 0 (COALESCE) when there is no entry. *)
Definition signed_amount (e : ledger_entry) : Z :=
  match le_type e with Credit => le_amount e | Debit => - le_amount e end.

Definition sum_entries (es : list ledger_entry) (acc : Z) : Z :=
  fold_right (fun e s => (if le_account e =? acc then signed_amount e else 0) + s) 0 es.

Fixpoint make_entries (id0 : Z) (rows : list (Z * Z * entry_type * dec))
  : option (list ledger_entry) :=
  match rows with
  | [] => Some []
  | (tid, acc, ty, amt) :: rest =>
      match to_numeric_14_2 amt, make_entries (id0 + 1) rest with
      | Some c, Some es =>
          Some ({| le_id := id0; le_tx := tid; le_account := acc;
                   le_type := ty; le_amount := c |} :: es)
      | _, _ => None
      end
  end.

(** SELECT id FROM accounts WHERE id = ANY($1) *)
Definition select_ids (ids : list Z) (l : list account) : list Z :=
  map acc_id (filter (fun a => existsb (Z.eqb (acc_id a)) ids) l).

(** INTEGER, the type of accounts.id and of the id parameters
    ($1 and $1::int[]). *)
Definition in_int4 (z : Z) : bool := (- 2 ^ 31 <=? z) && (z <? 2 ^ 31).

(** Some id parameter cannot be read as an INTEGER, so the statement
    fails before it reads the table.  Stored ids are SERIAL values, hence
    INTEGERs: an id equal to a stored id is in range, and the test leaves
    such ids out, which changes nothing on a store of SERIAL ids. *)
Definition id_out_of_range (ids : list Z) (l : list account) : bool :=
  existsb (fun i => negb (in_int4 i) && negb (existsb (fun a => acc_id a =? i) l)) ids.

Section Exec.
Context `{JsBuiltins}.

Definition exec (q : sql) (d : db) (s : session)
  : (sql_error + qresult) * db * session :=
  match q with
  | Begin => (inr RNone, d, match s with None => Some [] | Some l => Some l end)
  | Commit =>
      (inr RNone,
       match s with
       | None => d
       | Some log => {| tbl := apply_log (tbl d) log; seq_tx := seq_tx d;
                        seq_entry := seq_entry d |}
       end, None)
  | Rollback => (inr RNone, d, None)
  | SelectAccountIds ids =>
      if id_out_of_range ids (accounts (visible d s))
      then (inl NumericValueOutOfRange, d, s)
      else (inr (RIds (select_ids ids (accounts (visible d s)))), d, s)
  | SelectAccount i =>
      if id_out_of_range [i] (accounts (visible d s))
      then (inl NumericValueOutOfRange, d, s)
      else (inr (RAccounts (filter (fun a => acc_id a =? i) (accounts (visible d s)))), d, s)
  | InsertTransaction k amt cur src dst st descr =>
      match to_numeric_14_2 amt, to_varchar 10 cur with
      | Some c, inr cs =>
          let t := {| tx_id := seq_tx d; tx_kind := k; tx_amount := c;
                      tx_currency := cs; tx_source := src; tx_dest := dst;
                      tx_status := st; tx_description := descr |} in
          let d1 := {| tbl := tbl d; seq_tx := seq_tx d + 1;
                       seq_entry := seq_entry d |} in
          let '(d2, s2) := do_write d1 s (WInsTx t) in
          (inr (RId (seq_tx d)), d2, s2)
      | None, _ => (inl NumericFieldOverflow, d, s)
      | _, inl e => (inl e, d, s)
      end
  | InsertEntries rows =>
      match make_entries (seq_entry d) rows with
      | Some es =>
          let d1 := {| tbl := tbl d; seq_tx := seq_tx d;
                       seq_entry := seq_entry d + Z.of_nat (length rows) |} in
          let '(d2, s2) := do_write d1 s (WInsEntries es) in
          (inr RNone, d2, s2)
      | None => (inl NumericFieldOverflow, d, s)
      end
  | SumBalance acc =>
      (* sent only for an id the existence query has found, an INTEGER *)
      (inr (RBalance (sum_entries (ledger_entries (visible d s)) acc)), d, s)
  | SetStatus tid st =>
      let '(d2, s2) := do_write d s (WSetStatus tid st) in (inr RNone, d2, s2)
  end.

End Exec.

(* ------------------------------------------------------------------ *)
(** ** Handlers as programs over SQL statements *)

(** A handler body: it returns, throws a store error, or awaits a
    statement and continues with its outcome. *)
Inductive prog (A : Type) : Type :=
| Ret (a : A)
| Throw (e : sql_error)
| Query (q : sql) (k : sql_error + qresult -> prog A).
Arguments Ret {A} a.
Arguments Throw {A} e.
Arguments Query {A} q k.

Fixpoint bind {A B} (p : prog A) (f : A -> prog B) : prog B :=
  match p with
  | Ret a => f a
  | Throw e => Throw e
  | Query q k => Query q (fun r => bind (k r) f)
  end.

Notation "'let*' x := p 'in' f" := (bind p (fun x => f))
  (at level 200, x name, p at level 100, f at level 200).

(** [await client.query(q)]: a failing statement throws. *)
Definition query (q : sql) : prog qresult :=
  Query q (fun r => match r with inl e => Throw e | inr x => Ret x end).

(** [try { p } catch (err) { h(err) }] *)
Fixpoint try_catch {A} (p : prog A) (h : sql_error -> prog A) : prog A :=
  match p with
  | Ret a => Ret a
  | Throw e => h e
  | Query q k => Query q (fun r => try_catch (k r) h)
  end.

(** Values of a JSON response body. *)
Inductive rval :=
| RVInt (z : Z)
| RVStr (s : string)
| RVFixed2 (d : dec)          (* numericAmount.toFixed(2) *)
| RVJs (v : jsval)            (* a request value echoed back *)
| RVNumeric (cents : Z).      (* a NUMERIC(_,2) value from the store *)

Record response := { status : Z; body : list (string * rval) }.

Definition reply (code : Z) (m : string) : prog response :=
  Ret {| status := code; body := [("message"%string, RVStr m)] |}.

(** The catch block of the money-moving handlers. *)
Definition internal_error (err : sql_error) : prog response :=
  let* _ := try_catch (let* _ := query Rollback in Ret tt) (fun _ => Ret tt) in
  reply 500 "Internal server error".

Record transfer_req := {
  sourceAccountId : jsval;
  destinationAccountId : jsval;
  tr_amount : jsval;
  tr_currency : jsval;
  tr_description : jsval
}.

Record account_req := {
  accountId : jsval;
  amount : jsval;
  currency : jsval;
  description : jsval
}.

Section Handlers.
Context `{JsBuiltins}.

(** app.post('/transfers'), from its try block on, over [client] *)
Definition post_transfers (req : transfer_req) : prog response :=
  try_catch
    (if negb (truthy (sourceAccountId req)) || negb (truthy (destinationAccountId req))
        || negb (truthy (tr_amount req)) || negb (truthy (tr_currency req))
     then reply 400 "sourceAccountId, destinationAccountId, amount, and currency are required"
     else
     match parseInt10 (sourceAccountId req), parseInt10 (destinationAccountId req),
           parseFloat (tr_amount req) with
     | Some sourceId, Some destId, Some numericAmount =>
       if mant numericAmount <=? 0 then reply 400 "Invalid account ids or amount" else
       if sourceId =? destId
       then reply 400 "Source and destination accounts must be different" else
       let* _ := query Begin in
       let* accountsResult := query (SelectAccountIds [sourceId; destId]) in
       if negb (length (rows_of accountsResult) =? 2)%nat then
         (let* _ := query Rollback in reply 404 "One or both accounts not found")
       else
       let* txResult := query (InsertTransaction TTransfer numericAmount (tr_currency req)
                            (Some sourceId) (Some destId) Pending
                            (or_null (tr_description req))) in
       let transactionId := id_of txResult in
       let* _ := query (InsertEntries [(transactionId, sourceId, Debit, numericAmount);
                                  (transactionId, destId, Credit, numericAmount)]) in
       let* balanceResult := query (SumBalance sourceId) in
       (* parseFloat of the NUMERIC sum keeps its sign *)
       let newBalance := balance_of balanceResult in
       if newBalance <? 0 then
         (let* _ := query Rollback in reply 422 "Insufficient funds")
       else
       let* _ := query (SetStatus transactionId Completed) in
       let* _ := query Commit in
       Ret {| status := 201;
              body := [("transactionId"%string, RVInt transactionId);
                       ("status"%string, RVStr "completed");
                       ("sourceAccountId"%string, RVInt sourceId);
                       ("destinationAccountId"%string, RVInt destId);
                       ("amount"%string, RVFixed2 numericAmount);
                       ("currency"%string, RVJs (tr_currency req))] |}
     | _, _, _ => reply 400 "Invalid account ids or amount"
     end)
    internal_error.

(** app.post('/deposits'), from its try block on, over [client] *)
Definition post_deposits (req : account_req) : prog response :=
  try_catch
    (if negb (truthy (accountId req)) || negb (truthy (amount req))
        || negb (truthy (currency req))
     then reply 400 "accountId, amount, and currency are required"
     else
     match parseInt10 (accountId req), parseFloat (amount req) with
     | Some accId, Some numericAmount =>
       if mant numericAmount <=? 0 then reply 400 "Invalid accountId or amount" else
       let* _ := query Begin in
       let* accountResult := query (SelectAccountIds [accId]) in
       if (length (rows_of accountResult) =? 0)%nat then
         (let* _ := query Rollback in reply 404 "Account not found")
       else
       let* txResult := query (InsertTransaction TDeposit numericAmount (currency req)
                            None (Some accId) Pending (or_null (description req))) in
       let transactionId := id_of txResult in
       let* _ := query (InsertEntries [(transactionId, accId, Credit, numericAmount)]) in
       let* _ := query (SetStatus transactionId Completed) in
       let* _ := query Commit in
       Ret {| status := 201;
              body := [("transactionId"%string, RVInt transactionId);
                       ("status"%string, RVStr "completed");
                       ("accountId"%string, RVInt accId);
                       ("amount"%string, RVFixed2 numericAmount);
                       ("currency"%string, RVJs (currency req))] |}
     | _, _ => reply 400 "Invalid accountId or amount"
     end)
    internal_error.

(** app.post('/withdrawals'), from its try block on, over [client] *)
Definition post_withdrawals (req : account_req) : prog response :=
  try_catch
    (if negb (truthy (accountId req)) || negb (truthy (amount req))
        || negb (truthy (currency req))
     then reply 400 "accountId, amount, and currency are required"
     else
     match parseInt10 (accountId req), parseFloat (amount req) with
     | Some accId, Some numericAmount =>
       if mant numericAmount <=? 0 then reply 400 "Invalid accountId or amount" else
       let* _ := query Begin in
       let* accountResult := query (SelectAccountIds [accId]) in
       if (length (rows_of accountResult) =? 0)%nat then
         (let* _ := query Rollback in reply 404 "Account not found")
       else
       let* txResult := query (InsertTransaction TWithdrawal numericAmount (currency req)
                            (Some accId) None Pending (or_null (description req))) in
       let transactionId := id_of txResult in
       let* _ := query (InsertEntries [(transactionId, accId, Debit, numericAmount)]) in
       let* balanceResult := query (SumBalance accId) in
       let newBalance := balance_of balanceResult in
       if newBalance <? 0 then
         (let* _ := query Rollback in reply 422 "Insufficient funds")
       else
       let* _ := query (SetStatus transactionId Completed) in
       let* _ := query Commit in
       Ret {| status := 201;
              body := [("transactionId"%string, RVInt transactionId);
                       ("status"%string, RVStr "completed");
                       ("accountId"%string, RVInt accId);
                       ("amount"%string, RVFixed2 numericAmount);
                       ("currency"%string, RVJs (currency req))] |}
     | _, _ => reply 400 "Invalid accountId or amount"
     end)
    internal_error.

(** app.get('/accounts/:id'): plain pool queries, no transaction. *)
Definition get_account (id_param : string) : prog response :=
  try_catch
    (match parseInt10 (JStr id_param) with
     | None => reply 400 "Invalid account id"
     | Some accId =>
       let* accountResult := query (SelectAccount accId) in
       match accounts_of accountResult with
       | [] => reply 404 "Account not found"
       | account :: _ =>
         let* balanceResult := query (SumBalance accId) in
         Ret {| status := 200;
                body := [("id"%string, RVInt (acc_id account));
                         ("userId"%string, RVStr (acc_user account));
                         ("type"%string, RVStr (acc_type account));
                         ("currency"%string, RVStr (acc_currency account));
                         ("status"%string, RVStr (acc_status account));
                         ("balance"%string, RVNumeric (balance_of balanceResult))] |}
       end
     end)
    (fun _ => reply 500 "Internal server error").

(** Running a handler on its pooled connection: the statements it sends,
    in order, are returned as a trace. *)
Fixpoint run {A} (p : prog A) (d : db) (s : session)
  : (sql_error + A) * db * session * list sql :=
  match p with
  | Ret a => (inr a, d, s, [])
  | Throw e => (inl e, d, s, [])
  | Query q k =>
      let '(r, d1, s1) := exec q d s in
      let '(x, d2, s2, tr) := run (k r) d1 s1 in
      (x, d2, s2, q :: tr)
  end.

(** One request on a fresh connection.  The money handlers take theirs
    with [const client = await pool.connect()] before their try block;
    their programs start after that call, whose failure is not modelled
    (it escapes the catch and no response is sent). *)
Definition handle (p : prog response) (d : db) := run p d None.

(** Two requests on two connections, interleaved statement by statement
    by a schedule ([true]: the first one sends its next statement). *)
Definition step {A} (p : prog A) (d : db) (s : session)
  : option (prog A * db * session) :=
  match p with
  | Query q k => let '(r, d1, s1) := exec q d s in Some (k r, d1, s1)
  | _ => None
  end.

Fixpoint interleave {A} (sched : list bool) (p1 p2 : prog A) (s1 s2 : session)
  (d : db) : prog A * prog A * db :=
  match sched with
  | [] => (p1, p2, d)
  | true :: rest =>
      match step p1 d s1 with
      | Some (p1', d', s1') => interleave rest p1' p2 s1' s2 d'
      | None => interleave rest p1 p2 s1 s2 d
      end
  | false :: rest =>
      match step p2 d s2 with
      | Some (p2', d', s2') => interleave rest p1 p2' s1 s2' d'
      | None => interleave rest p1 p2 s1 s2 d
      end
  end.

End Handlers.

(* ------------------------------------------------------------------ *)
(** ** One implementation of the builtins, for concrete runs

    Strings: optional leading spaces, a sign, decimal digits and (for
    [parseFloat]) a fractional part; exponents and [Infinity] are not
    read.  Numbers: [parseInt] truncates toward zero, [parseFloat] is the
    identity, [String] prints the decimal without trailing zeros. *)

Definition digit_of (c : ascii) : option Z :=
  let n := Z.of_nat (nat_of_ascii c) in
  if (48 <=? n) && (n <=? 57) then Some (n - 48) else None.

Fixpoint skip_spaces (s : string) : string :=
  match s with
  | String " "%char r => skip_spaces r
  | _ => s
  end.

Definition sign_of (s : string) : Z * string :=
  match s with
  | String "-"%char r => (-1, r)
  | String "+"%char r => (1, r)
  | _ => (1, s)
  end.

(** The longest prefix of decimal digits: its value (after [acc]), its
    length and the rest of the string. *)
Fixpoint digits (s : string) (acc : Z) (n : nat) : Z * nat * string :=
  match s with
  | String c r =>
      match digit_of c with
      | Some k => digits r (acc * 10 + k) (S n)
      | None => (acc, n, s)
      end
  | EmptyString => (acc, n, s)
  end.

Definition parse_int_string (s : string) : option Z :=
  let '(sg, r) := sign_of (skip_spaces s) in
  let '(v, n, _) := digits r 0 O in
  if (n =? 0)%nat then None else Some (sg * v).

Definition parse_float_string (s : string) : option dec :=
  let '(sg, r) := sign_of (skip_spaces s) in
  let '(v, n, r1) := digits r 0 O in
  match r1 with
  | String "."%char r2 =>
      let '(f, m, _) := digits r2 v O in
      if (n + m =? 0)%nat then None else Some (Dec (sg * f) m)
  | _ => if (n =? 0)%nat then None else Some (Dec (sg * v) 0)
  end.

Fixpoint print_digits (fuel : nat) (n : Z) (acc : string) : string :=
  match fuel with
  | O => acc
  | S f =>
      let acc' := String (ascii_of_nat (48 + Z.to_nat (n mod 10))) acc in
      if n <? 10 then acc' else print_digits f (n / 10) acc'
  end.

(** [k] digits of [n], padded with leading zeros, trailing zeros cut. *)
Fixpoint fraction_digits (k : nat) (n : Z) (acc : string) : string :=
  match k with
  | O => acc
  | S k' =>
      let c := ascii_of_nat (48 + Z.to_nat (n mod 10)) in
      match acc, Z.eqb (n mod 10) 0 with
      | EmptyString, true => fraction_digits k' (n / 10) EmptyString
      | _, _ => fraction_digits k' (n / 10) (String c acc)
      end
  end.

Definition print_dec (d : dec) : string :=
  let p := 10 ^ Z.of_nat (scale d) in
  let a := Z.abs (mant d) in
  let ip := print_digits 64 (a / p) EmptyString in
  let fp := fraction_digits (scale d) (a mod p) EmptyString in
  let sg := if mant d <? 0 then String "-"%char EmptyString else EmptyString in
  match fp with
  | EmptyString => sg ++ ip
  | _ => sg ++ ip ++ String "."%char fp
  end.

Definition js_default : JsBuiltins := {|
  parseInt10 := fun v =>
    match v with
    | JNum d => Some (Z.quot (mant d) (10 ^ Z.of_nat (scale d)))
    | JStr s => parse_int_string s
    | _ => None
    end;
  parseFloat := fun v =>
    match v with
    | JNum d => Some d
    | JStr s => parse_float_string s
    | _ => None
    end;
  numberToString := print_dec
|}.

(* ------------------------------------------------------------------ *)
(** ** Sample stores *)

Definition mk_account (i : Z) : account :=
  {| acc_id := i; acc_user := "user1"; acc_type := "checking";
     acc_currency := "INR"; acc_status := "active" |}.

(** Accounts 1 and 2, no transaction yet. *)
Definition db0 : db :=
  {| tbl := {| accounts := [mk_account 1; mk_account 2]; transactions := [];
               ledger_entries := [] |};
     seq_tx := 1; seq_entry := 1 |}.

Definition money (acc : Z) (amt : string) : account_req :=
  {| accountId := JNum (Dec acc 0); amount := JStr amt;
     currency := JStr "INR"; description := JUndefined |}.

Definition transfer (src dst : Z) (amt : string) : transfer_req :=
  {| sourceAccountId := JNum (Dec src 0); destinationAccountId := JNum (Dec dst 0);
     tr_amount := JStr amt; tr_currency := JStr "INR";
     tr_description := JUndefined |}.

Definition resp_of (r : (sql_error + response) * db * session * list sql) : option response :=
  match r with (inr x, _, _, _) => Some x | _ => None end.
Definition db_of (r : (sql_error + response) * db * session * list sql) : db :=
  match r with (_, d, _, _) => d end.

(** Account 1 holding 100.00 after one deposit. *)
Definition db100 : db :=
  db_of (@handle js_default (@post_deposits js_default (money 1 "100.00")) db0).

(** Both withdrawals insert their debit and read the balance before
    either commits. *)
Definition race_schedule : list bool :=
  [true; true; true; true; true; false; false; false; false; false;
   true; true; false; false].

(* ------------------------------------------------------------------ *)
(** ** Store invariants and the spec's balance *)

(** PRIMARY KEY on accounts.id, and the SERIAL counter of transactions is
    ahead of every transaction id and every transaction_id of an entry. *)
Definition wf (d : db) : Prop :=
  NoDup (map acc_id (accounts (tbl d))) /\
  Forall (fun t => tx_id t < seq_tx d) (transactions (tbl d)) /\
  Forall (fun e => le_tx e < seq_tx d) (ledger_entries (tbl d)).

(** The balance as the spec words it: Σ credit amounts − Σ debit amounts
    over the account's entries. *)
Definition is_credit (e : ledger_entry) : bool :=
  match le_type e with Credit => true | Debit => false end.

Definition total (es : list ledger_entry) : Z := fold_right Z.add 0 (map le_amount es).

Definition spec_balance (es : list ledger_entry) (acc : Z) : Z :=
  total (filter (fun e => (le_account e =? acc) && is_credit e) es)
  - total (filter (fun e => (le_account e =? acc) && negb (is_credit e)) es).

(** Entries of one transaction, and of one account. *)
Definition entries_of_tx (es : list ledger_entry) (tid : Z) : list ledger_entry :=
  filter (fun e => le_tx e =? tid) es.

Definition entries_of_account (es : list ledger_entry) (acc : Z) : list ledger_entry :=
  filter (fun e => le_account e =? acc) es.

(** Rows as the handlers write them. *)
Definition tx_row (tid : Z) (k : tx_type) (c : Z) (cs : string) (src dst : option Z)
  (st : txn_status) (descr : jsval) : txn :=
  {| tx_id := tid; tx_kind := k; tx_amount := c; tx_currency := cs;
     tx_source := src; tx_dest := dst; tx_status := st; tx_description := descr |}.

Definition entry_row (id tid acc : Z) (ty : entry_type) (c : Z) : ledger_entry :=
  {| le_id := id; le_tx := tid; le_account := acc; le_type := ty; le_amount := c |}.

(** Requests served one after the other. *)
Inductive request :=
| RDeposit (r : account_req)
| RWithdraw (r : account_req)
| RTransfer (r : transfer_req)
| RGetAccount (id : string).

Section Serve.
Context `{JsBuiltins}.

Definition serve (rq : request) : prog response :=
  match rq with
  | RDeposit r => post_deposits r
  | RWithdraw r => post_withdrawals r
  | RTransfer r => post_transfers r
  | RGetAccount i => get_account i
  end.

Definition run_requests (rqs : list request) (d : db) : db :=
  fold_left (fun d rq => db_of (handle (serve rq) d)) rqs d.

Fixpoint repeat_deposit (n : nat) (req : account_req) (d : db) : db :=
  match n with
  | O => d
  | S k => repeat_deposit k req (db_of (handle (post_deposits req) d))
  end.

(** The amount field of a request body ([undefined] for a read). *)
Definition request_amount (rq : request) : jsval :=
  match rq with
  | RDeposit r | RWithdraw r => amount r
  | RTransfer r => tr_amount r
  | RGetAccount _ => JUndefined
  end.

(** From [d] to [d'] the ledger and the transaction rows only grow, and
    each amount added is the NUMERIC(14,2) value of the number parseFloat
    reads from [v]. *)
Definition amounts_from (v : jsval) (d d' : db) : Prop :=
  (exists es,
     ledger_entries (tbl d') = ledger_entries (tbl d) ++ es /\
     Forall (fun e => exists a, parseFloat v = Some a /\ le_amount e = round_cents a) es) /\
  (exists cs,
     map tx_amount (transactions (tbl d')) = map tx_amount (transactions (tbl d)) ++ cs /\
     Forall (fun c => exists a, parseFloat v = Some a /\ c = round_cents a) cs).

End Serve.

(** The body of a successful deposit or withdrawal. *)
Definition created_body (tid accId : Z) (a : dec) (cur : jsval) : list (string * rval) :=
  [("transactionId"%string, RVInt tid); ("status"%string, RVStr "completed");
   ("accountId"%string, RVInt accId); ("amount"%string, RVFixed2 a);
   ("currency"%string, RVJs cur)].

(** The body of a successful transfer. *)
Definition transfer_body (tid src dst : Z) (a : dec) (cur : jsval) : list (string * rval) :=
  [("transactionId"%string, RVInt tid); ("status"%string, RVStr "completed");
   ("sourceAccountId"%string, RVInt src); ("destinationAccountId"%string, RVInt dst);
   ("amount"%string, RVFixed2 a); ("currency"%string, RVJs cur)].

(** How a handler run ends: a response on a connection left outside any
    transaction, with the relations either untouched (and the counters
    not decreased) or changed as [success] says. *)
Definition outcome (d : db) (res : (sql_error + response) * db * session * list sql)
  (success : tables -> Prop) : Prop :=
  match res with
  | (inr r, d', None, _) =>
      (status r <> 201 /\ tbl d' = tbl d /\ seq_tx d <= seq_tx d')
      \/ (status r = 201 /\ In ("transactionId"%string, RVInt (seq_tx d)) (body r)
          /\ success (tbl d') /\ seq_tx d' = seq_tx d + 1)
  | _ => False
  end.

(** The relations of [d] with one transaction row and some entries added. *)
Definition appended (d : db) (t : txn) (es : list ledger_entry) : tables :=
  {| accounts := accounts (tbl d); transactions := transactions (tbl d) ++ [t];
     ledger_entries := ledger_entries (tbl d) ++ es |}.

(** Every transaction row is 'completed'. *)
Definition all_completed (t : tables) : Prop :=
  Forall (fun x => tx_status x = Completed) (transactions t).

(** Every transfer row has exactly its two legs: a debit of its amount on
    its source and a credit of its amount on its destination. *)
Definition legs_ok (t : tables) : Prop :=
  Forall (fun x => tx_kind x = TTransfer ->
    exists src dst id1 id2,
      tx_source x = Some src /\ tx_dest x = Some dst /\
      entries_of_tx (ledger_entries t) (tx_id x) =
        [entry_row id1 (tx_id x) src Debit (tx_amount x);
         entry_row id2 (tx_id x) dst Credit (tx_amount x)])
    (transactions t).

(** The statuses a run inserts transaction rows with, and those it sets. *)
Definition inserted_statuses (tr : list sql) : list txn_status :=
  flat_map (fun q => match q with InsertTransaction _ _ _ _ _ st _ => [st] | _ => [] end) tr.

Definition status_updates (tr : list sql) : list txn_status :=
  flat_map (fun q => match q with SetStatus _ st => [st] | _ => [] end) tr.

Definition trace_of (res : (sql_error + response) * db * session * list sql) : list sql :=
  match res with (_, _, _, tr) => tr end.

(* ------------------------------------------------------------------ *)
(** ** Handlers on the pool: POST /accounts and GET /accounts/:id/ledger

    These handlers send their statements with [pool.query], each one in
    autocommit mode, and have no transaction of their own. *)

(** The store seen by the pool handlers: the relations and counters above
    plus the SERIAL counter of accounts.id. *)
Record pool_db := {
  base : db;
  seq_account : Z
}.

(** One row of GET /accounts/:id/ledger: id, transaction_id AS
    "transactionId", entry_type AS "entryType", amount, created_at AS
    "createdAt". *)
Record ledger_row := {
  lr_id : Z;
  lr_tx : Z;
  lr_type : entry_type;
  lr_amount : Z;
  lr_created : Z
}.

Inductive pool_sql :=
(** INSERT INTO accounts (user_id, type, currency) VALUES ($1, $2, $3)
    RETURNING id, user_id AS "userId", type, currency, status *)
| InsertAccount (userId type currency : jsval)
(** SELECT id FROM accounts WHERE id = $1 *)
| SelectAccountId (id : Z)
(** SELECT id, transaction_id, entry_type, amount, created_at FROM
    ledger_entries WHERE account_id = $1 ORDER BY created_at ASC, id ASC *)
| SelectEntries (id : Z).

Inductive pool_result :=
| PAccount (a : account)
| PIds (ids : list Z)
| PRows (rows : list ledger_row).

Definition pids_of (r : pool_result) : list Z :=
  match r with PIds l => l | _ => [] end.
Definition prows_of (r : pool_result) : list ledger_row :=
  match r with PRows l => l | _ => [] end.

(** ORDER BY created_at ASC, id ASC *)
Definition row_le (r1 r2 : ledger_row) : bool :=
  (lr_created r1 <? lr_created r2)
  || ((lr_created r1 =? lr_created r2) && (lr_id r1 <=? lr_id r2)).

Fixpoint insert_row (r : ledger_row) (l : list ledger_row) : list ledger_row :=
  match l with
  | [] => [r]
  | x :: l' => if row_le r x then r :: l else x :: insert_row r l'
  end.

Fixpoint sort_rows (l : list ledger_row) : list ledger_row :=
  match l with
  | [] => []
  | x :: l' => insert_row x (sort_rows l')
  end.

Section Pool.
Context `{JsBuiltins}.
(** The created_at column of each entry, by entry id (the start time of
    the transaction that inserted it). *)
Variable created_at : Z -> Z.

Definition to_row (e : ledger_entry) : ledger_row :=
  {| lr_id := le_id e; lr_tx := le_tx e; lr_type := le_type e;
     lr_amount := le_amount e; lr_created := created_at (le_id e) |}.

(** A statement on the pool, committed at once.  user_id is VARCHAR(100),
    type VARCHAR(50) and currency VARCHAR(10), all NOT NULL; status
    defaults to 'active'.  A value that does not fit its column is
    rejected before [nextval] runs, so a failed insert uses up no id. *)
Definition exec_pool (q : pool_sql) (pd : pool_db) : (sql_error + pool_result) * pool_db :=
  let t := tbl (base pd) in
  match q with
  | InsertAccount u ty c =>
      match to_varchar 100 u, to_varchar 50 ty, to_varchar 10 c with
      | inr us, inr ts, inr cs =>
          let a := {| acc_id := seq_account pd; acc_user := us; acc_type := ts;
                      acc_currency := cs; acc_status := "active" |} in
          (inr (PAccount a),
           {| base := {| tbl := {| accounts := accounts t ++ [a];
                                   transactions := transactions t;
                                   ledger_entries := ledger_entries t |};
                         seq_tx := seq_tx (base pd); seq_entry := seq_entry (base pd) |};
              seq_account := seq_account pd + 1 |})
      | inl e, _, _ | _, inl e, _ | _, _, inl e => (inl e, pd)
      end
  | SelectAccountId i =>
      if id_out_of_range [i] (accounts t) then (inl NumericValueOutOfRange, pd)
      else (inr (PIds (select_ids [i] (accounts t))), pd)
  | SelectEntries i =>
      (inr (PRows (sort_rows (map to_row (entries_of_account (ledger_entries t) i)))), pd)
  end.

End Pool.

(** Programs over pool statements. *)
Inductive pprog (A : Type) : Type :=
| PRet (a : A)
| PThrow (e : sql_error)
| PQuery (q : pool_sql) (k : sql_error + pool_result -> pprog A).
Arguments PRet {A} a.
Arguments PThrow {A} e.
Arguments PQuery {A} q k.

Fixpoint pbind {A B} (p : pprog A) (f : A -> pprog B) : pprog B :=
  match p with
  | PRet a => f a
  | PThrow e => PThrow e
  | PQuery q k => PQuery q (fun r => pbind (k r) f)
  end.

Notation "'let+' x := p 'in' f" := (pbind p (fun x => f))
  (at level 200, x name, p at level 100, f at level 200).

(** [await pool.query(q)] *)
Definition pquery (q : pool_sql) : pprog pool_result :=
  PQuery q (fun r => match r with inl e => PThrow e | inr x => PRet x end).

Fixpoint ptry_catch {A} (p : pprog A) (h : sql_error -> pprog A) : pprog A :=
  match p with
  | PRet a => PRet a
  | PThrow e => h e
  | PQuery q k => PQuery q (fun r => ptry_catch (k r) h)
  end.

Definition preply (code : Z) (m : string) : pprog response :=
  PRet {| status := code; body := [("message"%string, RVStr m)] |}.

(** The reply of GET /accounts/:id/ledger. *)
Inductive ledger_body :=
| LMessage (m : string)
| LEntries (accountId : Z) (entries : list ledger_row).

Record ledger_response := { l_status : Z; l_body : ledger_body }.

Definition lreply (code : Z) (m : string) : pprog ledger_response :=
  PRet {| l_status := code; l_body := LMessage m |}.

(** The body of the row RETURNING gives back. *)
Definition account_body (a : account) : list (string * rval) :=
  [("id"%string, RVInt (acc_id a)); ("userId"%string, RVStr (acc_user a));
   ("type"%string, RVStr (acc_type a)); ("currency"%string, RVStr (acc_currency a));
   ("status"%string, RVStr (acc_status a))].

(** The fields of POST /accounts. *)
Record create_req := {
  userId : jsval;
  acc_kind : jsval;
  acc_cur : jsval
}.

Section PoolHandlers.
Context `{JsBuiltins}.

(** app.post('/accounts') *)
Definition post_accounts (req : create_req) : pprog response :=
  ptry_catch
    (if negb (truthy (userId req)) || negb (truthy (acc_kind req))
        || negb (truthy (acc_cur req))
     then preply 400 "userId, type, and currency are required"
     else
     let+ result := pquery (InsertAccount (userId req) (acc_kind req) (acc_cur req)) in
     match result with
     | PAccount a => PRet {| status := 201; body := account_body a |}
     | _ => PRet {| status := 201; body := [] |}
     end)
    (fun _ => preply 500 "Internal server error").

(** app.get('/accounts/:id/ledger') *)
Definition get_ledger (id_param : string) : pprog ledger_response :=
  ptry_catch
    (match parseInt10 (JStr id_param) with
     | None => lreply 400 "Invalid account id"
     | Some accountId =>
       let+ accountResult := pquery (SelectAccountId accountId) in
       if (length (pids_of accountResult) =? 0)%nat then lreply 404 "Account not found"
       else
       let+ entriesResult := pquery (SelectEntries accountId) in
       PRet {| l_status := 200; l_body := LEntries accountId (prows_of entriesResult) |}
     end)
    (fun _ => lreply 500 "Internal server error").

Variable created_at : Z -> Z.

Fixpoint prun {A} (p : pprog A) (pd : pool_db) : (sql_error + A) * pool_db * list pool_sql :=
  match p with
  | PRet a => (inr a, pd, [])
  | PThrow e => (inl e, pd, [])
  | PQuery q k =>
      let '(r, pd1) := exec_pool created_at q pd in
      let '(x, pd2, tr) := prun (k r) pd1 in
      (x, pd2, q :: tr)
  end.

End PoolHandlers.

(** Every account id below the accounts counter, and every entry on an
    existing account (the foreign key ledger_entries.account_id). *)
Definition pool_wf (pd : pool_db) : Prop :=
  Forall (fun a => acc_id a < seq_account pd) (accounts (tbl (base pd))) /\
  Forall (fun e => In (le_account e) (map acc_id (accounts (tbl (base pd)))))
    (ledger_entries (tbl (base pd))).

(** Σ credit − Σ debit over the rows of a ledger listing. *)
Definition rows_balance (rows : list ledger_row) : Z :=
  fold_right (fun r s => match lr_type r with Credit => lr_amount r | Debit => - lr_amount r end + s)
    0 rows.

(** Σ over every entry of the ledger, all accounts together. *)
Definition ledger_total (es : list ledger_entry) : Z :=
  fold_right (fun e s => signed_amount e + s) 0 es.

(** Every account has a balance of at least zero. *)
Definition balances_nonneg (t : tables) : Prop :=
  forall acc, 0 <= sum_entries (ledger_entries t) acc.

(** A pool store over [db100]: accounts 1 and 2 exist, the next id is 3. *)
Definition pd100 : pool_db := {| base := db100; seq_account := 3 |}.

(** Entries created in the order of their ids. *)
Definition clock_by_id (i : Z) : Z := i.

Definition new_req : create_req :=
  {| userId := JStr "user3"; acc_kind := JStr "savings"; acc_cur := JStr "INR" |}.

(* ------------------------------------------------------------------ *)
(** ** Lemmas *)

Ltac no_match t :=
  lazymatch t with context [match _ with _ => _ end] => fail | _ => idtac end.

(** Case on the innermost stuck [match] of the goal. *)
Ltac split_match :=
  match goal with
  | |- context [match ?x with _ => _ end] =>
      no_match x; let E := fresh "E" in destruct x eqn:E
  end.

Lemma length_filter_id (f : account -> bool) (l : list account) (i : Z) :
  NoDup (map acc_id l) -> (forall a, f a = (acc_id a =? i)) ->
  length (filter f l) = if in_dec Z.eq_dec i (map acc_id l) then 1%nat else 0%nat.
Proof.
  intros Hnd Hf. induction l as [|a l IH]; simpl; [reflexivity|].
  inversion Hnd as [|? ? Hni Hnd']; subst. specialize (IH Hnd').
  rewrite Hf. destruct (Z.eqb_spec (acc_id a) i) as [Heq|Hne]; simpl.
  - subst i. destruct (in_dec Z.eq_dec (acc_id a) (map acc_id l)); [contradiction|].
    rewrite IH. destruct (Z.eq_dec (acc_id a) (acc_id a)); [reflexivity|congruence].
  - rewrite IH. destruct (Z.eq_dec (acc_id a) i); [congruence|].
    destruct (in_dec Z.eq_dec i (map acc_id l)); reflexivity.
Qed.

Lemma length_filter_or (f g : account -> bool) (l : list account) :
  (forall a, f a = true -> g a = false) ->
  length (filter (fun a => f a || g a) l) = (length (filter f l) + length (filter g l))%nat.
Proof.
  intros Hfg. induction l as [|a l IH]; simpl; [reflexivity|].
  specialize (Hfg a). destruct (f a), (g a); simpl; rewrite ?IH;
    try lia; discriminate (Hfg eq_refl).
Qed.

Lemma filter_ext_length (f g : account -> bool) (l : list account) :
  (forall a, f a = g a) -> length (filter f l) = length (filter g l).
Proof. intros Hfg. rewrite (filter_ext f g Hfg). reflexivity. Qed.

Lemma select_one_nonempty (l : list account) (i : Z) :
  In i (map acc_id l) ->
  (length (select_ids [i] l) =? 0)%nat
  = false.
Proof.
  unfold select_ids. rewrite length_map. intros Hin.
  rewrite (filter_ext_length _ (fun a => acc_id a =? i)) by (intros; simpl; apply orb_false_r).
  induction l as [|a l IH]; simpl in *; [tauto|].
  destruct Hin as [Ha|Hi].
  - subst. rewrite Z.eqb_refl. reflexivity.
  - destruct (acc_id a =? i); [reflexivity|auto].
Qed.

Lemma select_one_empty (l : list account) (i : Z) :
  ~ In i (map acc_id l) ->
  (length (select_ids [i] l) =? 0)%nat
  = true.
Proof.
  unfold select_ids. rewrite length_map. intros Hn.
  rewrite (filter_ext_length _ (fun a => acc_id a =? i)) by (intros; simpl; apply orb_false_r).
  induction l as [|a l IH]; simpl in *; [reflexivity|].
  destruct (Z.eqb_spec (acc_id a) i); [tauto|auto].
Qed.

Lemma length_select_two (l : list account) (i j : Z) :
  NoDup (map acc_id l) -> i <> j ->
  length (select_ids [i; j] l) =
  ((if in_dec Z.eq_dec i (map acc_id l) then 1 else 0)
   + (if in_dec Z.eq_dec j (map acc_id l) then 1 else 0))%nat.
Proof.
  intros Hnd Hij. unfold select_ids. rewrite length_map.
  rewrite (filter_ext_length _ (fun a => (acc_id a =? i) || (acc_id a =? j)))
    by (intros; simpl; rewrite orb_false_r; reflexivity).
  rewrite length_filter_or.
  - rewrite (length_filter_id _ l i), (length_filter_id _ l j); auto.
  - intros a Ha. apply Z.eqb_eq in Ha. apply Z.eqb_neq. congruence.
Qed.

Lemma select_two_found (l : list account) (i j : Z) :
  NoDup (map acc_id l) -> i <> j -> In i (map acc_id l) -> In j (map acc_id l) ->
  negb (length (select_ids [i; j] l) =? 2)%nat
  = false.
Proof.
  intros Hnd Hij Hi Hj. rewrite length_select_two by assumption.
  destruct (in_dec Z.eq_dec i (map acc_id l)); [|contradiction].
  destruct (in_dec Z.eq_dec j (map acc_id l)); [|contradiction].
  reflexivity.
Qed.

Lemma select_two_missing (l : list account) (i j : Z) :
  NoDup (map acc_id l) -> i <> j ->
  ~ In i (map acc_id l) \/ ~ In j (map acc_id l) ->
  negb (length (select_ids [i; j] l) =? 2)%nat
  = true.
Proof.
  intros Hnd Hij Hm. rewrite length_select_two by assumption.
  destruct (in_dec Z.eq_dec i (map acc_id l)), (in_dec Z.eq_dec j (map acc_id l));
    simpl; tauto.
Qed.

Lemma id_out_of_range_ok (ids : list Z) (l : list account) :
  Forall (fun i => in_int4 i = true \/ In i (map acc_id l)) ids ->
  id_out_of_range ids l = false.
Proof.
  induction 1 as [|i ids Hi _ IH]; [reflexivity|]. simpl. rewrite IH, orb_false_r.
  destruct Hi as [Hi|Hi].
  - rewrite Hi. reflexivity.
  - replace (existsb (fun a => acc_id a =? i) l) with true; [apply andb_false_r|].
    symmetry. apply existsb_exists. apply in_map_iff in Hi. destruct Hi as [a [Ha Hin]].
    exists a. split; [exact Hin|apply Z.eqb_eq; exact Ha].
Qed.

Lemma id_out_of_range_bad (ids : list Z) (l : list account) :
  Exists (fun i => in_int4 i = false /\ ~ In i (map acc_id l)) ids ->
  id_out_of_range ids l = true.
Proof.
  induction 1 as [i ids [Hi Hn]|i ids _ IH]; simpl.
  - rewrite Hi. replace (existsb (fun a => acc_id a =? i) l) with false; [reflexivity|].
    symmetry. apply not_true_iff_false. intros E. apply existsb_exists in E.
    destruct E as [a [Ha E]]. apply Hn. apply in_map_iff. exists a.
    split; [apply Z.eqb_eq; exact E|exact Ha].
  - rewrite IH. apply orb_true_r.
Qed.

(** The id parameters of a statement are INTEGERs or stored ids. *)
Ltac range_ok :=
  repeat (apply Forall_cons || apply Forall_nil); tauto.

Lemma sum_entries_app (l1 l2 : list ledger_entry) (acc : Z) :
  sum_entries (l1 ++ l2) acc = sum_entries l1 acc + sum_entries l2 acc.
Proof.
  induction l1 as [|e l1 IH]; simpl; [reflexivity|]. rewrite IH. lia.
Qed.

Lemma set_status_fresh (l : list txn) (tid : Z) (st : txn_status) :
  Forall (fun t => tx_id t < tid) l -> map (set_status tid st) l = l.
Proof.
  induction 1 as [|t l Ht _ IH]; simpl; [reflexivity|].
  unfold set_status at 1. destruct (Z.eqb_spec (tx_id t) tid); [lia|].
  rewrite IH. reflexivity.
Qed.

Lemma to_numeric_ok (a : dec) :
  Z.abs (round_cents a) < 10 ^ 14 -> to_numeric_14_2 a = Some (round_cents a).
Proof. intros Ha. unfold to_numeric_14_2. apply Z.ltb_lt in Ha. rewrite Ha. reflexivity. Qed.

Lemma to_numeric_round (a : dec) (c : Z) :
  to_numeric_14_2 a = Some c -> c = round_cents a.
Proof.
  unfold to_numeric_14_2. destruct (Z.abs (round_cents a) <? 10 ^ 14); congruence.
Qed.

Lemma map_amount_set_status (l : list txn) (tid : Z) (st : txn_status) :
  map tx_amount (map (set_status tid st) l) = map tx_amount l.
Proof.
  induction l as [|t l IH]; simpl; [reflexivity|].
  rewrite IH. unfold set_status. destruct (tx_id t =? tid); reflexivity.
Qed.

(** An amount with at most two decimals is stored as it is. *)
Lemma round_cents_exact (a : dec) :
  (scale a <= 2)%nat -> round_cents a = mant a * 10 ^ (2 - Z.of_nat (scale a)).
Proof.
  intros Hs. unfold round_cents.
  assert (Hpk : 10 ^ Z.of_nat (scale a) * 10 ^ (2 - Z.of_nat (scale a)) = 100).
  { rewrite <- Z.pow_add_r by lia.
    replace (Z.of_nat (scale a) + (2 - Z.of_nat (scale a))) with 2 by lia. reflexivity. }
  assert (Hp : 0 < 10 ^ Z.of_nat (scale a)) by (apply Z.pow_pos_nonneg; lia).
  set (p := 10 ^ Z.of_nat (scale a)) in *.
  set (k := 10 ^ (2 - Z.of_nat (scale a))) in *.
  replace (Z.abs (mant a) * 200 + p) with (Z.abs (mant a) * k * (2 * p) + p) by nia.
  rewrite Z.div_add_l by lia. rewrite (Z.div_small p (2 * p)) by lia.
  rewrite Z.add_0_r, Z.mul_assoc. f_equal. destruct (mant a); simpl; lia.
Qed.

Lemma to_numeric_overflow (a : dec) :
  10 ^ 14 <= Z.abs (round_cents a) -> to_numeric_14_2 a = None.
Proof.
  intros Ha. unfold to_numeric_14_2.
  destruct (Z.ltb_spec (Z.abs (round_cents a)) (10 ^ 14)); [lia|reflexivity].
Qed.

Lemma sum_entries_snoc (l : list ledger_entry) (e : ledger_entry) (acc : Z) :
  sum_entries (l ++ [e]) acc =
  sum_entries l acc + (if le_account e =? acc then signed_amount e else 0).
Proof. rewrite sum_entries_app. unfold sum_entries at 2. simpl. lia. Qed.

Lemma sum_entries_snoc2 (l : list ledger_entry) (e1 e2 : ledger_entry) (acc : Z) :
  sum_entries (l ++ [e1; e2]) acc =
  sum_entries l acc + (if le_account e1 =? acc then signed_amount e1 else 0)
  + (if le_account e2 =? acc then signed_amount e2 else 0).
Proof. rewrite sum_entries_app. unfold sum_entries at 2. simpl. lia. Qed.

Arguments to_numeric_14_2 : simpl never.
Arguments to_varchar : simpl never.
Arguments select_ids : simpl never.
Arguments id_out_of_range : simpl never.
Arguments sum_entries : simpl never.

Section Forward.
Context `{JsBuiltins}.

Lemma deposit_success (req : account_req) (d : db) (accId : Z) (a : dec) (cs : string) :
  truthy (accountId req) = true -> truthy (amount req) = true ->
  truthy (currency req) = true ->
  parseInt10 (accountId req) = Some accId -> parseFloat (amount req) = Some a ->
  0 < mant a -> In accId (map acc_id (accounts (tbl d))) ->
  Z.abs (round_cents a) < 10 ^ 14 -> to_varchar 10 (currency req) = inr cs ->
  handle (post_deposits req) d =
    (inr {| status := 201; body := created_body (seq_tx d) accId a (currency req) |},
     {| tbl := {| accounts := accounts (tbl d);
                  transactions := map (set_status (seq_tx d) Completed)
                    (transactions (tbl d) ++
                     [tx_row (seq_tx d) TDeposit (round_cents a) cs None (Some accId)
                        Pending (or_null (description req))]);
                  ledger_entries := ledger_entries (tbl d) ++
                    [entry_row (seq_entry d) (seq_tx d) accId Credit (round_cents a)] |};
        seq_tx := seq_tx d + 1; seq_entry := seq_entry d + 1 |},
     None,
     [Begin; SelectAccountIds [accId];
      InsertTransaction TDeposit a (currency req) None (Some accId) Pending
        (or_null (description req));
      InsertEntries [(seq_tx d, accId, Credit, a)];
      SetStatus (seq_tx d) Completed; Commit]).
Proof.
  intros T1 T2 T3 P1 P2 Ha Hin Hn Hc.
  unfold handle, post_deposits. rewrite T1, T2, T3, P1, P2. simpl.
  replace (mant a <=? 0) with false by (symmetry; apply Z.leb_gt; lia).
  simpl. rewrite id_out_of_range_ok by range_ok. simpl. rewrite select_one_nonempty by exact Hin. simpl.
  rewrite to_numeric_ok, Hc by exact Hn. simpl.
  rewrite to_numeric_ok by exact Hn. simpl.
  reflexivity.
Qed.

Lemma withdraw_success (req : account_req) (d : db) (accId : Z) (a : dec) (cs : string) :
  truthy (accountId req) = true -> truthy (amount req) = true ->
  truthy (currency req) = true ->
  parseInt10 (accountId req) = Some accId -> parseFloat (amount req) = Some a ->
  0 < mant a -> In accId (map acc_id (accounts (tbl d))) ->
  Z.abs (round_cents a) < 10 ^ 14 -> to_varchar 10 (currency req) = inr cs ->
  0 <= sum_entries (ledger_entries (tbl d)) accId - round_cents a ->
  handle (post_withdrawals req) d =
    (inr {| status := 201; body := created_body (seq_tx d) accId a (currency req) |},
     {| tbl := {| accounts := accounts (tbl d);
                  transactions := map (set_status (seq_tx d) Completed)
                    (transactions (tbl d) ++
                     [tx_row (seq_tx d) TWithdrawal (round_cents a) cs (Some accId) None
                        Pending (or_null (description req))]);
                  ledger_entries := ledger_entries (tbl d) ++
                    [entry_row (seq_entry d) (seq_tx d) accId Debit (round_cents a)] |};
        seq_tx := seq_tx d + 1; seq_entry := seq_entry d + 1 |},
     None,
     [Begin; SelectAccountIds [accId];
      InsertTransaction TWithdrawal a (currency req) (Some accId) None Pending
        (or_null (description req));
      InsertEntries [(seq_tx d, accId, Debit, a)]; SumBalance accId;
      SetStatus (seq_tx d) Completed; Commit]).
Proof.
  intros T1 T2 T3 P1 P2 Ha Hin Hn Hc Hb.
  unfold handle, post_withdrawals. rewrite T1, T2, T3, P1, P2. simpl.
  replace (mant a <=? 0) with false by (symmetry; apply Z.leb_gt; lia).
  simpl. rewrite id_out_of_range_ok by range_ok. simpl. rewrite select_one_nonempty by exact Hin. simpl.
  rewrite to_numeric_ok, Hc by exact Hn. simpl.
  rewrite to_numeric_ok by exact Hn. simpl.
  rewrite sum_entries_snoc. simpl. rewrite Z.eqb_refl.
  cbn [signed_amount le_type le_amount]. match goal with |- context [?x <? 0] =>
    replace (x <? 0) with false by (symmetry; apply Z.ltb_ge; lia) end.
  reflexivity.
Qed.

Lemma withdraw_insufficient (req : account_req) (d : db) (accId : Z) (a : dec) (cs : string) :
  truthy (accountId req) = true -> truthy (amount req) = true ->
  truthy (currency req) = true ->
  parseInt10 (accountId req) = Some accId -> parseFloat (amount req) = Some a ->
  0 < mant a -> In accId (map acc_id (accounts (tbl d))) ->
  Z.abs (round_cents a) < 10 ^ 14 -> to_varchar 10 (currency req) = inr cs ->
  sum_entries (ledger_entries (tbl d)) accId - round_cents a < 0 ->
  handle (post_withdrawals req) d =
    (inr {| status := 422; body := [("message"%string, RVStr "Insufficient funds")] |},
     {| tbl := tbl d; seq_tx := seq_tx d + 1; seq_entry := seq_entry d + 1 |},
     None,
     [Begin; SelectAccountIds [accId];
      InsertTransaction TWithdrawal a (currency req) (Some accId) None Pending
        (or_null (description req));
      InsertEntries [(seq_tx d, accId, Debit, a)]; SumBalance accId; Rollback]).
Proof.
  intros T1 T2 T3 P1 P2 Ha Hin Hn Hc Hb.
  unfold handle, post_withdrawals. rewrite T1, T2, T3, P1, P2. simpl.
  replace (mant a <=? 0) with false by (symmetry; apply Z.leb_gt; lia).
  simpl. rewrite id_out_of_range_ok by range_ok. simpl. rewrite select_one_nonempty by exact Hin. simpl.
  rewrite to_numeric_ok, Hc by exact Hn. simpl.
  rewrite to_numeric_ok by exact Hn. simpl.
  rewrite sum_entries_snoc. simpl. rewrite Z.eqb_refl.
  cbn [signed_amount le_type le_amount]. match goal with |- context [?x <? 0] =>
    replace (x <? 0) with true by (symmetry; apply Z.ltb_lt; lia) end.
  reflexivity.
Qed.

Lemma transfer_success (req : transfer_req) (d : db) (src dst : Z) (a : dec) (cs : string) :
  truthy (sourceAccountId req) = true -> truthy (destinationAccountId req) = true ->
  truthy (tr_amount req) = true -> truthy (tr_currency req) = true ->
  parseInt10 (sourceAccountId req) = Some src ->
  parseInt10 (destinationAccountId req) = Some dst ->
  parseFloat (tr_amount req) = Some a -> 0 < mant a -> src <> dst ->
  NoDup (map acc_id (accounts (tbl d))) ->
  In src (map acc_id (accounts (tbl d))) -> In dst (map acc_id (accounts (tbl d))) ->
  Z.abs (round_cents a) < 10 ^ 14 -> to_varchar 10 (tr_currency req) = inr cs ->
  0 <= sum_entries (ledger_entries (tbl d)) src - round_cents a ->
  handle (post_transfers req) d =
    (inr {| status := 201; body := transfer_body (seq_tx d) src dst a (tr_currency req) |},
     {| tbl := {| accounts := accounts (tbl d);
                  transactions := map (set_status (seq_tx d) Completed)
                    (transactions (tbl d) ++
                     [tx_row (seq_tx d) TTransfer (round_cents a) cs (Some src) (Some dst)
                        Pending (or_null (tr_description req))]);
                  ledger_entries := ledger_entries (tbl d) ++
                    [entry_row (seq_entry d) (seq_tx d) src Debit (round_cents a);
                     entry_row (seq_entry d + 1) (seq_tx d) dst Credit (round_cents a)] |};
        seq_tx := seq_tx d + 1; seq_entry := seq_entry d + 2 |},
     None,
     [Begin; SelectAccountIds [src; dst];
      InsertTransaction TTransfer a (tr_currency req) (Some src) (Some dst) Pending
        (or_null (tr_description req));
      InsertEntries [(seq_tx d, src, Debit, a); (seq_tx d, dst, Credit, a)];
      SumBalance src; SetStatus (seq_tx d) Completed; Commit]).
Proof.
  intros T1 T2 T3 T4 P1 P2 P3 Ha Hne Hnd Hs Hd Hn Hc Hb.
  unfold handle, post_transfers. rewrite T1, T2, T3, T4, P1, P2, P3. simpl.
  replace (mant a <=? 0) with false by (symmetry; apply Z.leb_gt; lia).
  replace (src =? dst) with false by (symmetry; apply Z.eqb_neq; exact Hne).
  simpl. rewrite id_out_of_range_ok by range_ok. simpl. rewrite select_two_found by assumption. simpl.
  rewrite to_numeric_ok, Hc by exact Hn. simpl.
  rewrite to_numeric_ok by exact Hn. simpl.
  rewrite sum_entries_snoc2. simpl. rewrite Z.eqb_refl.
  replace (dst =? src) with false by (symmetry; apply Z.eqb_neq; congruence).
  cbn [signed_amount le_type le_amount]. match goal with |- context [?x <? 0] =>
    replace (x <? 0) with false by (symmetry; apply Z.ltb_ge; lia) end.
  reflexivity.
Qed.

Lemma transfer_insufficient (req : transfer_req) (d : db) (src dst : Z) (a : dec) (cs : string) :
  truthy (sourceAccountId req) = true -> truthy (destinationAccountId req) = true ->
  truthy (tr_amount req) = true -> truthy (tr_currency req) = true ->
  parseInt10 (sourceAccountId req) = Some src ->
  parseInt10 (destinationAccountId req) = Some dst ->
  parseFloat (tr_amount req) = Some a -> 0 < mant a -> src <> dst ->
  NoDup (map acc_id (accounts (tbl d))) ->
  In src (map acc_id (accounts (tbl d))) -> In dst (map acc_id (accounts (tbl d))) ->
  Z.abs (round_cents a) < 10 ^ 14 -> to_varchar 10 (tr_currency req) = inr cs ->
  sum_entries (ledger_entries (tbl d)) src - round_cents a < 0 ->
  handle (post_transfers req) d =
    (inr {| status := 422; body := [("message"%string, RVStr "Insufficient funds")] |},
     {| tbl := tbl d; seq_tx := seq_tx d + 1; seq_entry := seq_entry d + 2 |},
     None,
     [Begin; SelectAccountIds [src; dst];
      InsertTransaction TTransfer a (tr_currency req) (Some src) (Some dst) Pending
        (or_null (tr_description req));
      InsertEntries [(seq_tx d, src, Debit, a); (seq_tx d, dst, Credit, a)];
      SumBalance src; Rollback]).
Proof.
  intros T1 T2 T3 T4 P1 P2 P3 Ha Hne Hnd Hs Hd Hn Hc Hb.
  unfold handle, post_transfers. rewrite T1, T2, T3, T4, P1, P2, P3. simpl.
  replace (mant a <=? 0) with false by (symmetry; apply Z.leb_gt; lia).
  replace (src =? dst) with false by (symmetry; apply Z.eqb_neq; exact Hne).
  simpl. rewrite id_out_of_range_ok by range_ok. simpl. rewrite select_two_found by assumption. simpl.
  rewrite to_numeric_ok, Hc by exact Hn. simpl.
  rewrite to_numeric_ok by exact Hn. simpl.
  rewrite sum_entries_snoc2. simpl. rewrite Z.eqb_refl.
  replace (dst =? src) with false by (symmetry; apply Z.eqb_neq; congruence).
  cbn [signed_amount le_type le_amount]. match goal with |- context [?x <? 0] =>
    replace (x <? 0) with true by (symmetry; apply Z.ltb_lt; lia) end.
  reflexivity.
Qed.

End Forward.

Section Paths.
Context `{JsBuiltins}.

Lemma deposit_not_found (req : account_req) (d : db) (accId : Z) (a : dec) :
  truthy (accountId req) = true -> truthy (amount req) = true ->
  truthy (currency req) = true ->
  parseInt10 (accountId req) = Some accId -> parseFloat (amount req) = Some a ->
  0 < mant a -> ~ In accId (map acc_id (accounts (tbl d))) -> in_int4 accId = true ->
  handle (post_deposits req) d =
    (inr {| status := 404; body := [("message"%string, RVStr "Account not found")] |},
     d, None, [Begin; SelectAccountIds [accId]; Rollback]).
Proof.
  intros T1 T2 T3 P1 P2 Ha Hin Hr.
  unfold handle, post_deposits. rewrite T1, T2, T3, P1, P2. simpl.
  replace (mant a <=? 0) with false by (symmetry; apply Z.leb_gt; lia).
  simpl. rewrite id_out_of_range_ok by range_ok. simpl. rewrite select_one_empty by exact Hin. reflexivity.
Qed.

Lemma withdraw_not_found (req : account_req) (d : db) (accId : Z) (a : dec) :
  truthy (accountId req) = true -> truthy (amount req) = true ->
  truthy (currency req) = true ->
  parseInt10 (accountId req) = Some accId -> parseFloat (amount req) = Some a ->
  0 < mant a -> ~ In accId (map acc_id (accounts (tbl d))) -> in_int4 accId = true ->
  handle (post_withdrawals req) d =
    (inr {| status := 404; body := [("message"%string, RVStr "Account not found")] |},
     d, None, [Begin; SelectAccountIds [accId]; Rollback]).
Proof.
  intros T1 T2 T3 P1 P2 Ha Hin Hr.
  unfold handle, post_withdrawals. rewrite T1, T2, T3, P1, P2. simpl.
  replace (mant a <=? 0) with false by (symmetry; apply Z.leb_gt; lia).
  simpl. rewrite id_out_of_range_ok by range_ok. simpl. rewrite select_one_empty by exact Hin. reflexivity.
Qed.

Lemma transfer_not_found (req : transfer_req) (d : db) (src dst : Z) (a : dec) :
  truthy (sourceAccountId req) = true -> truthy (destinationAccountId req) = true ->
  truthy (tr_amount req) = true -> truthy (tr_currency req) = true ->
  parseInt10 (sourceAccountId req) = Some src ->
  parseInt10 (destinationAccountId req) = Some dst ->
  parseFloat (tr_amount req) = Some a -> 0 < mant a -> src <> dst ->
  NoDup (map acc_id (accounts (tbl d))) ->
  ~ In src (map acc_id (accounts (tbl d))) \/ ~ In dst (map acc_id (accounts (tbl d))) ->
  in_int4 src = true -> in_int4 dst = true ->
  handle (post_transfers req) d =
    (inr {| status := 404;
            body := [("message"%string, RVStr "One or both accounts not found")] |},
     d, None, [Begin; SelectAccountIds [src; dst]; Rollback]).
Proof.
  intros T1 T2 T3 T4 P1 P2 P3 Ha Hne Hnd Hm Hr1 Hr2.
  unfold handle, post_transfers. rewrite T1, T2, T3, T4, P1, P2, P3. simpl.
  replace (mant a <=? 0) with false by (symmetry; apply Z.leb_gt; lia).
  replace (src =? dst) with false by (symmetry; apply Z.eqb_neq; exact Hne).
  simpl. rewrite id_out_of_range_ok by range_ok. simpl. rewrite select_two_missing by assumption. reflexivity.
Qed.

Lemma deposit_invalid (req : account_req) :
  truthy (accountId req) = false \/ truthy (amount req) = false \/
  truthy (currency req) = false \/
  (exists a, parseFloat (amount req) = Some a /\ mant a <= 0) ->
  exists m, post_deposits req = reply 400 m.
Proof.
  intros Hinv. unfold post_deposits.
  destruct (truthy (accountId req)) eqn:T1; [|eexists; reflexivity].
  destruct (truthy (amount req)) eqn:T2; [|eexists; reflexivity].
  destruct (truthy (currency req)) eqn:T3; [|eexists; reflexivity].
  destruct Hinv as [Hf|[Hf|[Hf|[a [Ha Hm]]]]]; try congruence.
  simpl. rewrite Ha. destruct (parseInt10 (accountId req)); [|eexists; reflexivity].
  replace (mant a <=? 0) with true by (symmetry; apply Z.leb_le; exact Hm).
  eexists; reflexivity.
Qed.

Lemma withdraw_invalid (req : account_req) :
  truthy (accountId req) = false \/ truthy (amount req) = false \/
  truthy (currency req) = false \/
  (exists a, parseFloat (amount req) = Some a /\ mant a <= 0) ->
  exists m, post_withdrawals req = reply 400 m.
Proof.
  intros Hinv. unfold post_withdrawals.
  destruct (truthy (accountId req)) eqn:T1; [|eexists; reflexivity].
  destruct (truthy (amount req)) eqn:T2; [|eexists; reflexivity].
  destruct (truthy (currency req)) eqn:T3; [|eexists; reflexivity].
  destruct Hinv as [Hf|[Hf|[Hf|[a [Ha Hm]]]]]; try congruence.
  simpl. rewrite Ha. destruct (parseInt10 (accountId req)); [|eexists; reflexivity].
  replace (mant a <=? 0) with true by (symmetry; apply Z.leb_le; exact Hm).
  eexists; reflexivity.
Qed.

Lemma transfer_invalid (req : transfer_req) :
  truthy (sourceAccountId req) = false \/ truthy (destinationAccountId req) = false \/
  truthy (tr_amount req) = false \/ truthy (tr_currency req) = false \/
  (exists a, parseFloat (tr_amount req) = Some a /\ mant a <= 0) \/
  (exists i, parseInt10 (sourceAccountId req) = Some i /\
             parseInt10 (destinationAccountId req) = Some i) ->
  exists m, post_transfers req = reply 400 m.
Proof.
  intros Hinv. unfold post_transfers.
  destruct (truthy (sourceAccountId req)) eqn:T1; [|eexists; reflexivity].
  destruct (truthy (destinationAccountId req)) eqn:T2; [|eexists; reflexivity].
  destruct (truthy (tr_amount req)) eqn:T3; [|eexists; reflexivity].
  destruct (truthy (tr_currency req)) eqn:T4; [|eexists; reflexivity].
  simpl.
  destruct Hinv as [Hf|[Hf|[Hf|[Hf|[[a [Ha Hm]]|[i [Hi Hj]]]]]]]; try congruence.
  - rewrite Ha.
    destruct (parseInt10 (sourceAccountId req)), (parseInt10 (destinationAccountId req));
      try (eexists; reflexivity).
    replace (mant a <=? 0) with true by (symmetry; apply Z.leb_le; exact Hm).
    eexists; reflexivity.
  - rewrite Hi, Hj. destruct (parseFloat (tr_amount req)) as [a|]; [|eexists; reflexivity].
    destruct (mant a <=? 0); [eexists; reflexivity|].
    rewrite Z.eqb_refl. eexists; reflexivity.
Qed.

End Paths.

Section Outcomes.
Context `{JsBuiltins}.

Ltac settle_outcome Hwf :=
  simpl in *;
  repeat match goal with Hs : Some _ = Some _ |- _ => injection Hs as Hs; subst end;
  first
  [ congruence
  | left; split; [discriminate|]; split; [reflexivity|]; simpl; lia
  | right; split; [reflexivity|]; split; [simpl; auto|]; split; [|simpl; reflexivity];
    repeat eexists; unfold appended; simpl;
    rewrite map_app, set_status_fresh by (apply (proj1 (proj2 Hwf)));
    unfold set_status; simpl; rewrite Z.eqb_refl; reflexivity ].

Lemma deposit_outcome (req : account_req) (d : db) :
  wf d ->
  outcome d (handle (post_deposits req) d) (fun t =>
    exists accId c cs,
      t = appended d (tx_row (seq_tx d) TDeposit c cs None (Some accId) Completed
                        (or_null (description req)))
                     [entry_row (seq_entry d) (seq_tx d) accId Credit c]).
Proof.
  intros Hwf. unfold handle, post_deposits.
  repeat (simpl; split_match); settle_outcome Hwf.
Qed.

Lemma withdraw_outcome (req : account_req) (d : db) :
  wf d ->
  outcome d (handle (post_withdrawals req) d) (fun t =>
    exists accId c cs,
      t = appended d (tx_row (seq_tx d) TWithdrawal c cs (Some accId) None Completed
                        (or_null (description req)))
                     [entry_row (seq_entry d) (seq_tx d) accId Debit c]).
Proof.
  intros Hwf. unfold handle, post_withdrawals.
  repeat (simpl; split_match); settle_outcome Hwf.
Qed.

Lemma transfer_outcome (req : transfer_req) (d : db) :
  wf d ->
  outcome d (handle (post_transfers req) d) (fun t =>
    exists src dst c cs,
      t = appended d (tx_row (seq_tx d) TTransfer c cs (Some src) (Some dst) Completed
                        (or_null (tr_description req)))
                     [entry_row (seq_entry d) (seq_tx d) src Debit c;
                      entry_row (seq_entry d + 1) (seq_tx d) dst Credit c]).
Proof.
  intros Hwf. unfold handle, post_transfers.
  repeat (simpl; split_match); settle_outcome Hwf.
Qed.

Lemma get_account_outcome (i : string) (d : db) :
  match handle (get_account i) d with
  | (inr r, d', None, _) => status r <> 201 /\ d' = d
  | _ => False
  end.
Proof.
  unfold handle, get_account.
  repeat (simpl; split_match); simpl; split; (discriminate || reflexivity).
Qed.

(** What any request does to the relations when it succeeds. *)
Definition new_rows (d : db) (t : tables) : Prop :=
  exists x es,
    t = appended d x es /\ tx_id x = seq_tx d /\ tx_status x = Completed /\
    Forall (fun e => le_tx e = seq_tx d) es /\
    (tx_kind x = TTransfer ->
       exists src dst, tx_source x = Some src /\ tx_dest x = Some dst /\
         es = [entry_row (seq_entry d) (seq_tx d) src Debit (tx_amount x);
               entry_row (seq_entry d + 1) (seq_tx d) dst Credit (tx_amount x)]).

Lemma serve_outcome (rq : request) (d : db) :
  wf d -> outcome d (handle (serve rq) d) (new_rows d).
Proof.
  intros Hwf. destruct rq as [r|r|r|i]; simpl.
  - pose proof (deposit_outcome r d Hwf) as Ho.
    destruct (handle (post_deposits r) d) as [[[[e|x] d'] [l|]] tr]; try contradiction.
    destruct Ho as [Ho|[Hs [Hi [[accId [c [cs Ht]]] Hq]]]]; [left; exact Ho|right].
    repeat split; try assumption.
    exists (tx_row (seq_tx d) TDeposit c cs None (Some accId) Completed
              (or_null (description r))).
    eexists; repeat split; [exact Ht|repeat constructor|discriminate].
  - pose proof (withdraw_outcome r d Hwf) as Ho.
    destruct (handle (post_withdrawals r) d) as [[[[e|x] d'] [l|]] tr]; try contradiction.
    destruct Ho as [Ho|[Hs [Hi [[accId [c [cs Ht]]] Hq]]]]; [left; exact Ho|right].
    repeat split; try assumption.
    exists (tx_row (seq_tx d) TWithdrawal c cs (Some accId) None Completed
              (or_null (description r))).
    eexists; repeat split; [exact Ht|repeat constructor|discriminate].
  - pose proof (transfer_outcome r d Hwf) as Ho.
    destruct (handle (post_transfers r) d) as [[[[e|x] d'] [l|]] tr]; try contradiction.
    destruct Ho as [Ho|[Hs [Hi [[src [dst [c [cs Ht]]]] Hq]]]]; [left; exact Ho|right].
    repeat split; try assumption.
    exists (tx_row (seq_tx d) TTransfer c cs (Some src) (Some dst) Completed
              (or_null (tr_description r))).
    eexists; repeat split; [exact Ht|repeat constructor|].
    intros _. exists src, dst. repeat split.
  - pose proof (get_account_outcome i d) as Ho.
    destruct (handle (get_account i) d) as [[[[e|x] d'] [l|]] tr]; try contradiction.
    destruct Ho as [Hs ->]. left. repeat split; [exact Hs|lia].
Qed.

Lemma serve_statuses (rq : request) (d : db) :
  let tr := trace_of (handle (serve rq) d) in
  Forall (eq Pending) (inserted_statuses tr) /\
  Forall (eq Completed) (status_updates tr) /\
  (length (status_updates tr) <= 1)%nat.
Proof.
  destruct rq as [r|r|r|i]; simpl;
    [unfold handle, post_deposits | unfold handle, post_withdrawals
    | unfold handle, post_transfers | unfold handle, get_account];
    repeat (simpl; split_match); simpl; repeat constructor.
Qed.

Ltac settle_amounts :=
  simpl in *;
  repeat match goal with Hs : Some _ = Some _ |- _ => injection Hs as Hs; subst end;
  repeat match goal with Hn : to_numeric_14_2 _ = Some _ |- _ =>
    apply to_numeric_round in Hn; subst end;
  unfold amounts_from; simpl;
  rewrite ?map_amount_set_status, ?map_app;
  split; eexists; (split; [first [symmetry; apply app_nil_r | reflexivity]|]);
  repeat constructor; eexists; split; eauto.

Lemma serve_amounts (rq : request) (d : db) :
  amounts_from (request_amount rq) d (db_of (handle (serve rq) d)).
Proof.
  destruct rq as [r|r|r|i]; simpl;
    [unfold handle, post_deposits | unfold handle, post_withdrawals
    | unfold handle, post_transfers | unfold handle, get_account];
    repeat (simpl; split_match); settle_amounts.
Qed.

End Outcomes.

Lemma entries_of_tx_app (l1 l2 : list ledger_entry) (tid : Z) :
  entries_of_tx (l1 ++ l2) tid = entries_of_tx l1 tid ++ entries_of_tx l2 tid.
Proof. apply filter_app. Qed.

Lemma entries_of_tx_none (l : list ledger_entry) (tid : Z) :
  Forall (fun e => le_tx e <> tid) l -> entries_of_tx l tid = [].
Proof.
  induction 1 as [|e l He _ IH]; simpl; [reflexivity|].
  destruct (Z.eqb_spec (le_tx e) tid); [contradiction|exact IH].
Qed.

Lemma entries_of_tx_all (l : list ledger_entry) (tid : Z) :
  Forall (fun e => le_tx e = tid) l -> entries_of_tx l tid = l.
Proof.
  induction 1 as [|e l He _ IH]; simpl; [reflexivity|].
  rewrite He, Z.eqb_refl, IH. reflexivity.
Qed.

Section Invariants.
Context `{JsBuiltins}.

Lemma serve_wf (rq : request) (d : db) : wf d -> wf (db_of (handle (serve rq) d)).
Proof.
  intros Hwf. pose proof (serve_outcome rq d Hwf) as Ho.
  destruct (handle (serve rq) d) as [[[[e|r] d'] [l|]] tr]; try contradiction. simpl.
  destruct Hwf as [A [B C]].
  destruct Ho as [[_ [Ht Hs]] | [_ [_ [[x [es [Ht [Hid [_ [Hes _]]]]]] Hs]]]].
  - unfold wf. rewrite Ht. split; [exact A|split].
    + eapply Forall_impl; [|exact B]. simpl. intros; lia.
    + eapply Forall_impl; [|exact C]. simpl. intros; lia.
  - unfold wf. rewrite Ht. unfold appended. simpl. split; [exact A|split].
    + apply Forall_app. split.
      * eapply Forall_impl; [|exact B]. simpl. intros; lia.
      * constructor; [lia|constructor].
    + apply Forall_app. split.
      * eapply Forall_impl; [|exact C]. simpl. intros; lia.
      * eapply Forall_impl; [|exact Hes]. simpl. intros; lia.
Qed.

Lemma serve_completed (rq : request) (d : db) :
  wf d -> all_completed (tbl d) -> all_completed (tbl (db_of (handle (serve rq) d))).
Proof.
  intros Hwf Hc. pose proof (serve_outcome rq d Hwf) as Ho.
  destruct (handle (serve rq) d) as [[[[e|r] d'] [l|]] tr]; try contradiction. simpl.
  destruct Ho as [[_ [Ht Hs]] | [_ [_ [[x [es [Ht [Hid [Hst _]]]]] Hs]]]].
  - rewrite Ht. exact Hc.
  - rewrite Ht. unfold all_completed, appended. simpl.
    apply Forall_app. split; [exact Hc|constructor; [exact Hst|constructor]].
Qed.

Lemma serve_legs (rq : request) (d : db) :
  wf d -> legs_ok (tbl d) -> legs_ok (tbl (db_of (handle (serve rq) d))).
Proof.
  intros Hwf Hl. pose proof (serve_outcome rq d Hwf) as Ho.
  destruct (handle (serve rq) d) as [[[[e|r] d'] [l|]] tr]; try contradiction. simpl.
  destruct Ho as [[_ [Ht Hs]] | [_ [_ [[x [es [Ht [Hid [_ [Hes Hx]]]]]] Hs]]]].
  - rewrite Ht. exact Hl.
  - rewrite Ht. unfold legs_ok, appended. simpl. destruct Hwf as [_ [B C]].
    apply Forall_app. split.
    + apply Forall_forall. intros y Hy Hk.
      pose proof (proj1 (Forall_forall _ _) Hl y Hy Hk) as [src [dst [i1 [i2 [H1 [H2 H3]]]]]].
      pose proof (proj1 (Forall_forall _ _) B y Hy) as Hlt. simpl in Hlt.
      exists src, dst, i1, i2. repeat split; try assumption.
      rewrite entries_of_tx_app, H3, entries_of_tx_none; [apply app_nil_r|].
      eapply Forall_impl; [|exact Hes]. simpl. intros; lia.
    + constructor; [|constructor]. intros Hk.
      destruct (Hx Hk) as [src [dst [H1 [H2 H3]]]].
      exists src, dst, (seq_entry d), (seq_entry d + 1). repeat split; try assumption.
      rewrite entries_of_tx_app, entries_of_tx_none, entries_of_tx_all.
      * rewrite H3, Hid. reflexivity.
      * rewrite Hid. exact Hes.
      * rewrite Hid. eapply Forall_impl; [|exact C]. simpl. intros; lia.
Qed.

Lemma run_requests_invariants (rqs : list request) (d : db) :
  wf d -> all_completed (tbl d) -> legs_ok (tbl d) ->
  wf (run_requests rqs d) /\ all_completed (tbl (run_requests rqs d)) /\
  legs_ok (tbl (run_requests rqs d)).
Proof.
  revert d. induction rqs as [|rq rqs IH]; intros d Hw Hc Hl; simpl; [tauto|].
  apply IH; [apply serve_wf | apply serve_completed | apply serve_legs]; assumption.
Qed.

End Invariants.

Lemma sum_entries_spec (es : list ledger_entry) (acc : Z) :
  sum_entries es acc = spec_balance es acc.
Proof.
  unfold spec_balance, total.
  induction es as [|e es IH]; [reflexivity|].
  change (sum_entries (e :: es) acc)
    with ((if le_account e =? acc then signed_amount e else 0) + sum_entries es acc).
  rewrite IH. simpl.
  destruct (le_account e =? acc); simpl; [|lia].
  unfold signed_amount, is_credit. destruct (le_type e); simpl; lia.
Qed.

Lemma sum_entries_no_entry (es : list ledger_entry) (acc : Z) :
  entries_of_account es acc = [] -> sum_entries es acc = 0.
Proof.
  induction es as [|e es IH]; [reflexivity|].
  change (sum_entries (e :: es) acc)
    with ((if le_account e =? acc then signed_amount e else 0) + sum_entries es acc).
  unfold entries_of_account in *. simpl.
  destruct (le_account e =? acc); [discriminate|]. intros He. rewrite IH by exact He.
  reflexivity.
Qed.

Lemma select_account_found (l : list account) (i : Z) :
  In i (map acc_id l) -> exists a rest, filter (fun a => acc_id a =? i) l = a :: rest.
Proof.
  induction l as [|a l IH]; simpl; [tauto|]. intros [Ha|Hi].
  - subst. rewrite Z.eqb_refl. eauto.
  - destruct (acc_id a =? i); eauto.
Qed.

Lemma repeat_deposit_balance `{JsBuiltins} (n : nat) (req : account_req) (d : db)
  (accId : Z) (a : dec) (cs : string) :
  truthy (accountId req) = true -> truthy (amount req) = true ->
  truthy (currency req) = true ->
  parseInt10 (accountId req) = Some accId -> parseFloat (amount req) = Some a ->
  0 < mant a -> In accId (map acc_id (accounts (tbl d))) ->
  Z.abs (round_cents a) < 10 ^ 14 -> to_varchar 10 (currency req) = inr cs ->
  accounts (tbl (repeat_deposit n req d)) = accounts (tbl d) /\
  sum_entries (ledger_entries (tbl (repeat_deposit n req d))) accId =
  sum_entries (ledger_entries (tbl d)) accId + Z.of_nat n * round_cents a.
Proof.
  intros T1 T2 T3 P1 P2 Ha Hin Hn Hc. revert d Hin.
  induction n as [|n IH]; intros d Hin; [simpl; split; [reflexivity|lia]|].
  cbn [repeat_deposit].
  rewrite (deposit_success req d accId a cs T1 T2 T3 P1 P2 Ha Hin Hn Hc). cbn [db_of].
  match goal with |- context [repeat_deposit n req ?d'] =>
    destruct (IH d') as [Hacc Hsum]; [simpl; exact Hin|] end.
  split; [exact Hacc|].
  rewrite Hsum. cbn [tbl ledger_entries]. rewrite sum_entries_snoc.
  rewrite Nat2Z.inj_succ. unfold entry_row, signed_amount. cbn [le_account le_type le_amount].
  rewrite Z.eqb_refl. lia.
Qed.

Lemma wf_db0 : wf db0.
Proof.
  split; [|split; constructor]. simpl.
  constructor; [simpl; intros [H|H]; [discriminate|contradiction]|].
  constructor; [simpl; tauto|constructor].
Qed.

Section Runs.
Context `{JsBuiltins}.

Lemma run_requests_legs (rqs : list request) (d : db) :
  wf d -> legs_ok (tbl d) -> legs_ok (tbl (run_requests rqs d)).
Proof.
  revert d. induction rqs as [|rq rqs IH]; intros d Hw Hl; simpl; [exact Hl|].
  apply IH; [apply serve_wf | apply serve_legs]; assumption.
Qed.

Lemma run_requests_completed (rqs : list request) (d : db) :
  wf d -> all_completed (tbl d) -> all_completed (tbl (run_requests rqs d)).
Proof.
  revert d. induction rqs as [|rq rqs IH]; intros d Hw Hc; simpl; [exact Hc|].
  apply IH; [apply serve_wf | apply serve_completed]; assumption.
Qed.

(** Two withdrawals of the same request scheduled so that each inserts
    its debit and reads the balance before either commits. *)
Lemma withdrawals_race (req : account_req) (d : db) (accId : Z) (a : dec) (cs : string) :
  truthy (accountId req) = true -> truthy (amount req) = true ->
  truthy (currency req) = true ->
  parseInt10 (accountId req) = Some accId -> parseFloat (amount req) = Some a ->
  0 < mant a -> In accId (map acc_id (accounts (tbl d))) ->
  Z.abs (round_cents a) < 10 ^ 14 -> to_varchar 10 (currency req) = inr cs ->
  0 <= sum_entries (ledger_entries (tbl d)) accId - round_cents a ->
  match interleave race_schedule (post_withdrawals req) (post_withdrawals req) None None d with
  | (Ret r1, Ret r2, d') =>
      status r1 = 201 /\ status r2 = 201 /\
      sum_entries (ledger_entries (tbl d')) accId
        = sum_entries (ledger_entries (tbl d)) accId - round_cents a - round_cents a
  | _ => False
  end.
Proof.
  intros T1 T2 T3 P1 P2 Ha Hin Hn Hc Hb.
  unfold race_schedule, post_withdrawals. rewrite T1, T2, T3, P1, P2. simpl.
  replace (mant a <=? 0) with false by (symmetry; apply Z.leb_gt; lia).
  simpl. rewrite id_out_of_range_ok by range_ok. simpl. rewrite select_one_nonempty by exact Hin. simpl.
  repeat (first [rewrite to_numeric_ok by exact Hn | rewrite Hc
                 | rewrite id_out_of_range_ok by range_ok
                 | rewrite select_one_nonempty by exact Hin]; simpl).
  rewrite !sum_entries_snoc. cbn [le_account signed_amount le_type le_amount].
  rewrite Z.eqb_refl.
  replace (sum_entries (ledger_entries (tbl d)) accId + - round_cents a <? 0)
    with false by (symmetry; apply Z.ltb_ge; lia).
  simpl. split; [reflexivity|split; [reflexivity|]].
  rewrite !sum_entries_snoc. cbn [le_account signed_amount le_type le_amount].
  rewrite Z.eqb_refl. lia.
Qed.

End Runs.

(* ------------------------------------------------------------------ *)
(** ** The properties of the specification *)

Section Claims.
Context `{JsBuiltins}.

(** C1. A withdrawal or a transfer on existing accounts with a positive
    amount, whose debited account has a negative recomputed balance once
    the debit entry is appended, answers 422 "Insufficient funds" and
    leaves the relations exactly as they were: the transaction row and the
    entries of the attempt are rolled back, so the debited account's
    entries are unchanged (only the SERIAL counters, which PostgreSQL does
    not roll back, have moved). *)
Theorem insufficient_funds_rolls_back :
  (forall (req : account_req) (d : db) (accId : Z) (a : dec) (cs : string),
     truthy (accountId req) = true -> truthy (amount req) = true ->
     truthy (currency req) = true ->
     parseInt10 (accountId req) = Some accId -> parseFloat (amount req) = Some a ->
     0 < mant a -> In accId (map acc_id (accounts (tbl d))) ->
     Z.abs (round_cents a) < 10 ^ 14 -> to_varchar 10 (currency req) = inr cs ->
     sum_entries (ledger_entries (tbl d) ++
                  [entry_row (seq_entry d) (seq_tx d) accId Debit (round_cents a)]) accId < 0 ->
     exists d' tr,
       handle (post_withdrawals req) d =
         (inr {| status := 422; body := [("message"%string, RVStr "Insufficient funds")] |},
          d', None, tr) /\
       tbl d' = tbl d /\
       entries_of_account (ledger_entries (tbl d')) accId
         = entries_of_account (ledger_entries (tbl d)) accId) /\
  (forall (req : transfer_req) (d : db) (src dst : Z) (a : dec) (cs : string),
     truthy (sourceAccountId req) = true -> truthy (destinationAccountId req) = true ->
     truthy (tr_amount req) = true -> truthy (tr_currency req) = true ->
     parseInt10 (sourceAccountId req) = Some src ->
     parseInt10 (destinationAccountId req) = Some dst ->
     parseFloat (tr_amount req) = Some a -> 0 < mant a -> src <> dst ->
     NoDup (map acc_id (accounts (tbl d))) ->
     In src (map acc_id (accounts (tbl d))) -> In dst (map acc_id (accounts (tbl d))) ->
     Z.abs (round_cents a) < 10 ^ 14 -> to_varchar 10 (tr_currency req) = inr cs ->
     sum_entries (ledger_entries (tbl d) ++
                  [entry_row (seq_entry d) (seq_tx d) src Debit (round_cents a)]) src < 0 ->
     exists d' tr,
       handle (post_transfers req) d =
         (inr {| status := 422; body := [("message"%string, RVStr "Insufficient funds")] |},
          d', None, tr) /\
       tbl d' = tbl d /\
       entries_of_account (ledger_entries (tbl d')) src
         = entries_of_account (ledger_entries (tbl d)) src).
Proof.
  split.
  - intros req d accId a cs T1 T2 T3 P1 P2 Ha Hin Hn Hc Hb.
    rewrite sum_entries_snoc in Hb. unfold entry_row, signed_amount in Hb.
    cbn [le_account le_type le_amount] in Hb. rewrite Z.eqb_refl in Hb.
    rewrite (withdraw_insufficient req d accId a cs) by (auto; lia).
    do 2 eexists. split; [reflexivity|]. split; reflexivity.
  - intros req d src dst a cs T1 T2 T3 T4 P1 P2 P3 Ha Hne Hnd Hs Hd Hn Hc Hb.
    rewrite sum_entries_snoc in Hb. unfold entry_row, signed_amount in Hb.
    cbn [le_account le_type le_amount] in Hb. rewrite Z.eqb_refl in Hb.
    rewrite (transfer_insufficient req d src dst a cs) by (auto; lia).
    do 2 eexists. split; [reflexivity|]. split; reflexivity.
Qed.

(** C2. The balance GET /accounts/:id reports for an existing account is
    Σ credit amounts − Σ debit amounts over its ledger entries, 0 when it
    has none, whatever the store (so in particular after any sequence of
    requests); the account row has no balance column, the reply's balance
    is this recomputation. *)
Theorem reported_balance_recomputed (id_param : string) (d : db) (accId : Z) :
  parseInt10 (JStr id_param) = Some accId -> In accId (map acc_id (accounts (tbl d))) ->
  exists r,
    resp_of (handle (get_account id_param) d) = Some r /\ status r = 200 /\
    map fst (body r) = ["id"; "userId"; "type"; "currency"; "status"; "balance"]%string /\
    In ("balance"%string, RVNumeric (spec_balance (ledger_entries (tbl d)) accId)) (body r) /\
    (entries_of_account (ledger_entries (tbl d)) accId = [] ->
     spec_balance (ledger_entries (tbl d)) accId = 0).
Proof.
  intros P Hin. destruct (select_account_found _ _ Hin) as [ac [rest Hf]].
  unfold handle, get_account. rewrite P. simpl. rewrite Hf.
  rewrite id_out_of_range_ok by range_ok. simpl.
  eexists. split; [reflexivity|]. split; [reflexivity|]. split; [reflexivity|].
  split.
  - rewrite <- sum_entries_spec. simpl. tauto.
  - intros He. rewrite <- sum_entries_spec. apply sum_entries_no_entry, He.
Qed.

(** C3. A transfer that succeeds appends to the ledger exactly two entries
    for its transaction, one debit on the source and one credit on the
    destination, of the same amount and transaction id; a transfer that
    fails leaves the ledger as it was (both legs or neither).  Over any
    sequence of requests every transfer row keeps exactly these two
    entries. *)
Theorem transfer_two_legs (req : transfer_req) (d : db) :
  wf d ->
  match handle (post_transfers req) d with
  | (inr r, d', None, _) =>
      (status r = 201 /\ In ("transactionId"%string, RVInt (seq_tx d)) (body r) /\
       exists src dst c cs,
         tbl d' = appended d (tx_row (seq_tx d) TTransfer c cs (Some src) (Some dst) Completed
                                 (or_null (tr_description req)))
                    [entry_row (seq_entry d) (seq_tx d) src Debit c;
                     entry_row (seq_entry d + 1) (seq_tx d) dst Credit c] /\
         entries_of_tx (ledger_entries (tbl d')) (seq_tx d) =
           [entry_row (seq_entry d) (seq_tx d) src Debit c;
            entry_row (seq_entry d + 1) (seq_tx d) dst Credit c])
      \/ (status r <> 201 /\ ledger_entries (tbl d') = ledger_entries (tbl d))
  | _ => False
  end /\
  (forall rqs, legs_ok (tbl d) -> legs_ok (tbl (run_requests rqs d))).
Proof.
  intros Hwf. split; [|intros rqs; apply run_requests_legs, Hwf].
  pose proof (transfer_outcome req d Hwf) as Ho.
  destruct (handle (post_transfers req) d) as [[[[e|r] d'] [l|]] tr]; try contradiction.
  destruct Ho as [[Hs [Ht _]] | [Hs [Hi [[src [dst [c [cs Ht]]]] _]]]].
  - right. split; [exact Hs|]. rewrite Ht. reflexivity.
  - left. split; [exact Hs|]. split; [exact Hi|]. exists src, dst, c, cs.
    split; [exact Ht|]. rewrite Ht. unfold appended. cbn [ledger_entries].
    rewrite entries_of_tx_app, entries_of_tx_none.
    + simpl. rewrite !Z.eqb_refl. reflexivity.
    + destruct Hwf as [_ [_ C]]. eapply Forall_impl; [|exact C]. simpl. intros; lia.
Qed.

(** C4, as the code has it.  A deposit of a positive amount A into an
    existing account with pre-call balance B answers 201 with the
    transaction id, status, account id, amount and currency, and no new
    balance; after the commit the account's balance is exactly B + A, A
    rounded to cents by NUMERIC(14,2). *)
Theorem deposit_reply_and_balance (req : account_req) (d : db) (accId : Z) (a : dec)
  (cs : string) :
  truthy (accountId req) = true -> truthy (amount req) = true ->
  truthy (currency req) = true ->
  parseInt10 (accountId req) = Some accId -> parseFloat (amount req) = Some a ->
  0 < mant a -> In accId (map acc_id (accounts (tbl d))) ->
  Z.abs (round_cents a) < 10 ^ 14 -> to_varchar 10 (currency req) = inr cs ->
  exists d' tr,
    handle (post_deposits req) d =
      (inr {| status := 201; body := created_body (seq_tx d) accId a (currency req) |},
       d', None, tr) /\
    map fst (created_body (seq_tx d) accId a (currency req))
      = ["transactionId"; "status"; "accountId"; "amount"; "currency"]%string /\
    sum_entries (ledger_entries (tbl d')) accId
      = sum_entries (ledger_entries (tbl d)) accId + round_cents a.
Proof.
  intros T1 T2 T3 P1 P2 Ha Hin Hn Hc.
  rewrite (deposit_success req d accId a cs) by assumption.
  do 2 eexists. split; [reflexivity|]. split; [reflexivity|].
  cbn [tbl ledger_entries]. rewrite sum_entries_snoc.
  unfold entry_row, signed_amount. cbn [le_account le_type le_amount].
  rewrite Z.eqb_refl. lia.
Qed.

(** C5. Amounts are kept as whole numbers of cents (NUMERIC(14,2)) and
    balances are sums of these integers, with no floating-point step:
    an amount with at most two decimals is stored as it is; every amount
    a deposit, withdrawal or transfer writes, to the ledger or to its
    transaction row, is the NUMERIC(14,2) value of the request's amount;
    n deposits of an amount add exactly n times that value to the
    balance, and 10,000 deposits of 0.01 add exactly 100.00. *)
Theorem cent_deposits_exact :
  (forall a : dec, (scale a <= 2)%nat ->
     round_cents a = mant a * 10 ^ (2 - Z.of_nat (scale a))) /\
  (forall (rq : request) (d : db),
     amounts_from (request_amount rq) d (db_of (handle (serve rq) d))) /\
  (forall (req : account_req) (d : db) (accId : Z) (a : dec) (cs : string),
     truthy (accountId req) = true -> truthy (amount req) = true ->
     truthy (currency req) = true ->
     parseInt10 (accountId req) = Some accId -> parseFloat (amount req) = Some a ->
     0 < mant a -> In accId (map acc_id (accounts (tbl d))) ->
     Z.abs (round_cents a) < 10 ^ 14 -> to_varchar 10 (currency req) = inr cs ->
     forall n, sum_entries (ledger_entries (tbl (repeat_deposit n req d))) accId
               = sum_entries (ledger_entries (tbl d)) accId + Z.of_nat n * round_cents a) /\
  (forall (req : account_req) (d : db) (accId : Z) (cs : string),
     truthy (accountId req) = true -> truthy (amount req) = true ->
     truthy (currency req) = true ->
     parseInt10 (accountId req) = Some accId -> parseFloat (amount req) = Some (Dec 1 2) ->
     In accId (map acc_id (accounts (tbl d))) -> to_varchar 10 (currency req) = inr cs ->
     sum_entries (ledger_entries (tbl (repeat_deposit 10000 req d))) accId
       = sum_entries (ledger_entries (tbl d)) accId + 10000).
Proof.
  split; [exact round_cents_exact|]. split; [exact serve_amounts|]. split.
  - intros req d accId a cs T1 T2 T3 P1 P2 Ha Hin Hn Hc n.
    exact (proj2 (repeat_deposit_balance n req d accId a cs T1 T2 T3 P1 P2 Ha Hin Hn Hc)).
  - intros req d accId cs T1 T2 T3 P1 P2 Hin Hc.
    assert (Ha : 0 < mant (Dec 1 2)) by (simpl; lia).
    assert (Hn : Z.abs (round_cents (Dec 1 2)) < 10 ^ 14) by reflexivity.
    rewrite (proj2 (repeat_deposit_balance 10000 req d accId (Dec 1 2) cs
                      T1 T2 T3 P1 P2 Ha Hin Hn Hc)).
    reflexivity.
Qed.

(** C6. Every transaction row in the store after a request is
    'completed': a request inserts its row as 'pending', sets its status
    at most once and only to 'completed', and either adds that one
    completed row or leaves the rows as they were; rows already there are
    never changed, and no 'failed' row is ever stored, over any sequence
    of requests. *)
Theorem transactions_completed (rq : request) (d : db) :
  wf d -> all_completed (tbl d) ->
  all_completed (tbl (db_of (handle (serve rq) d))) /\
  (transactions (tbl (db_of (handle (serve rq) d))) = transactions (tbl d) \/
   exists x, transactions (tbl (db_of (handle (serve rq) d))) = transactions (tbl d) ++ [x]
             /\ tx_status x = Completed) /\
  Forall (eq Pending) (inserted_statuses (trace_of (handle (serve rq) d))) /\
  Forall (eq Completed) (status_updates (trace_of (handle (serve rq) d))) /\
  (length (status_updates (trace_of (handle (serve rq) d))) <= 1)%nat /\
  (forall rqs, all_completed (tbl (run_requests rqs d))).
Proof.
  intros Hwf Hc.
  pose proof (serve_statuses rq d) as [S1 [S2 S3]].
  split; [apply serve_completed; assumption|].
  split; [|split; [exact S1|split; [exact S2|split; [exact S3|]]]].
  - pose proof (serve_outcome rq d Hwf) as Ho.
    destruct (handle (serve rq) d) as [[[[e|r] d'] [l|]] tr]; try contradiction.
    simpl. destruct Ho as [[_ [Ht _]] | [_ [_ [[x [es [Ht [_ [Hst _]]]]] _]]]].
    + left. rewrite Ht. reflexivity.
    + right. exists x. rewrite Ht. split; [reflexivity|exact Hst].
  - intros rqs. apply run_requests_completed; assumption.
Qed.

(** C7. A deposit, withdrawal or transfer with a missing field, a
    non-positive amount or (transfer) equal source and destination ids
    answers 400 before any statement is sent: no transaction is opened,
    nothing is read or written, the store is untouched. *)
Theorem invalid_input_untouched :
  (forall req : account_req,
     truthy (accountId req) = false \/ truthy (amount req) = false \/
     truthy (currency req) = false \/
     (exists a, parseFloat (amount req) = Some a /\ mant a <= 0) ->
     (exists r, status r = 400 /\
        forall d, handle (post_deposits req) d = (inr r, d, None, [])) /\
     (exists r, status r = 400 /\
        forall d, handle (post_withdrawals req) d = (inr r, d, None, []))) /\
  (forall req : transfer_req,
     truthy (sourceAccountId req) = false \/ truthy (destinationAccountId req) = false \/
     truthy (tr_amount req) = false \/ truthy (tr_currency req) = false \/
     (exists a, parseFloat (tr_amount req) = Some a /\ mant a <= 0) \/
     (exists i, parseInt10 (sourceAccountId req) = Some i /\
                parseInt10 (destinationAccountId req) = Some i) ->
     exists r, status r = 400 /\
       forall d, handle (post_transfers req) d = (inr r, d, None, [])).
Proof.
  split.
  - intros req Hinv. split.
    + destruct (deposit_invalid req Hinv) as [m Hm].
      eexists. split; [|intros d; unfold handle; rewrite Hm; reflexivity]. reflexivity.
    + destruct (withdraw_invalid req Hinv) as [m Hm].
      eexists. split; [|intros d; unfold handle; rewrite Hm; reflexivity]. reflexivity.
  - intros req Hinv. destruct (transfer_invalid req Hinv) as [m Hm].
    eexists. split; [|intros d; unfold handle; rewrite Hm; reflexivity]. reflexivity.
Qed.

(** C8, as the code has it.  A deposit or withdrawal naming an INTEGER
    id that no account has, and a transfer whose two INTEGER ids are not
    both accounts, answer 404 after BEGIN, one existence query and
    ROLLBACK, and the store is left exactly as it was; the transfer asks
    for both ids in the one query.  An id outside INTEGER (parseInt gives
    any integer) makes the existence query itself fail: the handler rolls
    back and answers 500, the store again left as it was. *)
Theorem not_found_aborts :
  (forall (req : account_req) (d : db) (accId : Z) (a : dec),
     truthy (accountId req) = true -> truthy (amount req) = true ->
     truthy (currency req) = true ->
     parseInt10 (accountId req) = Some accId -> parseFloat (amount req) = Some a ->
     0 < mant a -> ~ In accId (map acc_id (accounts (tbl d))) ->
     (in_int4 accId = true ->
      handle (post_deposits req) d =
        (inr {| status := 404; body := [("message"%string, RVStr "Account not found")] |},
         d, None, [Begin; SelectAccountIds [accId]; Rollback]) /\
      handle (post_withdrawals req) d =
        (inr {| status := 404; body := [("message"%string, RVStr "Account not found")] |},
         d, None, [Begin; SelectAccountIds [accId]; Rollback])) /\
     (in_int4 accId = false ->
      handle (post_deposits req) d =
        (inr {| status := 500; body := [("message"%string, RVStr "Internal server error")] |},
         d, None, [Begin; SelectAccountIds [accId]; Rollback]) /\
      handle (post_withdrawals req) d =
        (inr {| status := 500; body := [("message"%string, RVStr "Internal server error")] |},
         d, None, [Begin; SelectAccountIds [accId]; Rollback]))) /\
  (forall (req : transfer_req) (d : db) (src dst : Z) (a : dec),
     truthy (sourceAccountId req) = true -> truthy (destinationAccountId req) = true ->
     truthy (tr_amount req) = true -> truthy (tr_currency req) = true ->
     parseInt10 (sourceAccountId req) = Some src ->
     parseInt10 (destinationAccountId req) = Some dst ->
     parseFloat (tr_amount req) = Some a -> 0 < mant a -> src <> dst ->
     NoDup (map acc_id (accounts (tbl d))) ->
     ~ In src (map acc_id (accounts (tbl d))) \/ ~ In dst (map acc_id (accounts (tbl d))) ->
     (in_int4 src = true -> in_int4 dst = true ->
      handle (post_transfers req) d =
        (inr {| status := 404;
                body := [("message"%string, RVStr "One or both accounts not found")] |},
         d, None, [Begin; SelectAccountIds [src; dst]; Rollback])) /\
     (Forall (fun i => in_int4 i = true) (map acc_id (accounts (tbl d))) ->
      in_int4 src = false \/ in_int4 dst = false ->
      handle (post_transfers req) d =
        (inr {| status := 500; body := [("message"%string, RVStr "Internal server error")] |},
         d, None, [Begin; SelectAccountIds [src; dst]; Rollback]))).
Proof.
  split.
  - intros req d accId a T1 T2 T3 P1 P2 Ha Hin. split.
    + intros Hr. split.
      * apply (deposit_not_found req d accId a); assumption.
      * apply (withdraw_not_found req d accId a); assumption.
    + intros Hr. unfold handle, post_deposits, post_withdrawals.
      rewrite T1, T2, T3, P1, P2. simpl.
      replace (mant a <=? 0) with false by (symmetry; apply Z.leb_gt; lia).
      simpl. rewrite id_out_of_range_bad by (constructor; split; assumption).
      split; reflexivity.
  - intros req d src dst a T1 T2 T3 T4 P1 P2 P3 Ha Hne Hnd Hm. split.
    + intros Hr1 Hr2. apply (transfer_not_found req d src dst a); assumption.
    + intros Hall Hr. unfold handle, post_transfers.
      rewrite T1, T2, T3, T4, P1, P2, P3. simpl.
      replace (mant a <=? 0) with false by (symmetry; apply Z.leb_gt; lia).
      replace (src =? dst) with false by (symmetry; apply Z.eqb_neq; exact Hne).
      simpl. rewrite id_out_of_range_bad; [reflexivity|].
      rewrite Forall_forall in Hall.
      destruct Hr as [Hr|Hr]; [apply Exists_cons_hd|apply Exists_cons_tl, Exists_cons_hd];
        (split; [exact Hr|]); intros Hi; specialize (Hall _ Hi); congruence.
Qed.

(** C9, as the code has it.  Take an account with balance B and a
    withdrawal amount A with A <= B < 2A (60.00 against 100.00).  Two
    such withdrawals served one after the other give one 201 and one 422.
    The handlers take no lock and run at READ COMMITTED, so when both
    insert their debit and read the balance before either commits, both
    answer 201 and the balance ends at B - 2A, below zero. *)
Theorem withdrawals_serial_or_race (req : account_req) (d : db) (accId : Z) (a : dec)
  (cs : string) :
  truthy (accountId req) = true -> truthy (amount req) = true ->
  truthy (currency req) = true ->
  parseInt10 (accountId req) = Some accId -> parseFloat (amount req) = Some a ->
  0 < mant a -> In accId (map acc_id (accounts (tbl d))) ->
  Z.abs (round_cents a) < 10 ^ 14 -> to_varchar 10 (currency req) = inr cs ->
  round_cents a <= sum_entries (ledger_entries (tbl d)) accId < 2 * round_cents a ->
  (option_map status (resp_of (handle (post_withdrawals req) d)) = Some 201 /\
   option_map status (resp_of (handle (post_withdrawals req)
                                 (db_of (handle (post_withdrawals req) d)))) = Some 422) /\
  match interleave race_schedule (post_withdrawals req) (post_withdrawals req) None None d with
  | (Ret r1, Ret r2, d') =>
      status r1 = 201 /\ status r2 = 201 /\
      sum_entries (ledger_entries (tbl d')) accId
        = sum_entries (ledger_entries (tbl d)) accId - 2 * round_cents a /\
      sum_entries (ledger_entries (tbl d')) accId < 0
  | _ => False
  end.
Proof.
  intros T1 T2 T3 P1 P2 Ha Hin Hn Hc Hb. split.
  - rewrite (withdraw_success req d accId a cs) by (auto; lia).
    split; [reflexivity|]. cbn [db_of].
    rewrite (withdraw_insufficient req _ accId a cs) by
      (auto; cbn [tbl ledger_entries]; rewrite sum_entries_snoc;
       unfold entry_row, signed_amount; cbn [le_account le_type le_amount];
       rewrite Z.eqb_refl; lia).
    reflexivity.
  - pose proof (withdrawals_race req d accId a cs T1 T2 T3 P1 P2 Ha Hin Hn Hc) as Hr.
    destruct (interleave race_schedule (post_withdrawals req) (post_withdrawals req)
                None None d) as [[p1 p2] d'].
    destruct p1, p2; try (apply Hr; lia).
    destruct Hr as [S1 [S2 Hs]]; [lia|].
    split; [exact S1|]. split; [exact S2|]. split; lia.
Qed.

(** C10. A deposit, withdrawal or transfer one of whose account ids or
    whose amount is the number 0 (falsy in JavaScript) answers 400 with
    the required-fields message before any statement is sent; so an
    account id 0 never leads to 404. *)
Theorem zero_fields_missing :
  (forall (req : account_req) (z : dec),
     mant z = 0 -> accountId req = JNum z \/ amount req = JNum z ->
     forall d,
       handle (post_deposits req) d =
         (inr {| status := 400;
                 body := [("message"%string,
                           RVStr "accountId, amount, and currency are required")] |},
          d, None, []) /\
       handle (post_withdrawals req) d =
         (inr {| status := 400;
                 body := [("message"%string,
                           RVStr "accountId, amount, and currency are required")] |},
          d, None, [])) /\
  (forall (req : transfer_req) (z : dec),
     mant z = 0 ->
     sourceAccountId req = JNum z \/ destinationAccountId req = JNum z \/
     tr_amount req = JNum z ->
     forall d,
       handle (post_transfers req) d =
         (inr {| status := 400;
                 body := [("message"%string, RVStr
                   "sourceAccountId, destinationAccountId, amount, and currency are required")] |},
          d, None, [])).
Proof.
  assert (Hz : forall z, mant z = 0 -> truthy (JNum z) = false).
  { intros z Hm. simpl. rewrite Hm. reflexivity. }
  split.
  - intros req z Hm Hf d. unfold handle, post_deposits, post_withdrawals.
    destruct Hf as [Hf|Hf]; rewrite Hf, (Hz z Hm);
      repeat match goal with |- context [truthy ?v] => destruct (truthy v) end;
      split; reflexivity.
  - intros req z Hm Hf d. unfold handle, post_transfers.
    destruct Hf as [Hf|[Hf|Hf]]; rewrite Hf, (Hz z Hm);
      repeat match goal with |- context [truthy ?v] => destruct (truthy v) end;
      reflexivity.
Qed.

End Claims.

(* ------------------------------------------------------------------ *)
(** ** Further properties of the handlers *)

Lemma sum_entries_cons (e : ledger_entry) (l : list ledger_entry) (acc : Z) :
  sum_entries (e :: l) acc = (if le_account e =? acc then signed_amount e else 0) + sum_entries l acc.
Proof. reflexivity. Qed.
Lemma sum_entries_nil (acc : Z) : sum_entries [] acc = 0.
Proof. reflexivity. Qed.

Lemma ledger_total_app (l1 l2 : list ledger_entry) :
  ledger_total (l1 ++ l2) = ledger_total l1 + ledger_total l2.
Proof. induction l1 as [|e l IH]; simpl; [reflexivity|]. rewrite IH. lia. Qed.

Lemma row_le_total (x y : ledger_row) : row_le x y = false -> row_le y x = true.
Proof.
  unfold row_le. destruct (Z.ltb_spec (lr_created x) (lr_created y)); [discriminate|].
  destruct (Z.eqb_spec (lr_created x) (lr_created y)); destruct (Z.leb_spec (lr_id x) (lr_id y));
  simpl; intros E; try discriminate;
  destruct (Z.ltb_spec (lr_created y) (lr_created x)); simpl; try reflexivity;
  try (rewrite (proj2 (Z.eqb_eq _ _)) by lia; simpl; apply Z.leb_le; lia); lia.
Qed.

Lemma insert_row_perm (r : ledger_row) (l : list ledger_row) :
  Permutation (insert_row r l) (r :: l).
Proof.
  induction l as [|x l IH]; simpl; [reflexivity|].
  destruct (row_le r x); [reflexivity|].
  rewrite IH. apply perm_swap.
Qed.

Lemma sort_rows_perm (l : list ledger_row) : Permutation (sort_rows l) l.
Proof.
  induction l as [|x l IH]; simpl; [reflexivity|].
  rewrite insert_row_perm, IH. reflexivity.
Qed.

Lemma insert_row_sorted (r : ledger_row) (l : list ledger_row) :
  Sorted (fun x y => row_le x y = true) l ->
  Sorted (fun x y => row_le x y = true) (insert_row r l).
Proof.
  induction 1 as [|x l Hs IH Hh]; simpl; [repeat constructor|].
  destruct (row_le r x) eqn:E.
  - constructor; [constructor; assumption | constructor; exact E].
  - constructor; [exact IH|].
    destruct l as [|y l']; simpl; [constructor; apply row_le_total; exact E|].
    inversion Hh; subst.
    destruct (row_le r y); constructor; [apply row_le_total; exact E | assumption].
Qed.

Lemma sort_rows_sorted (l : list ledger_row) :
  Sorted (fun x y => row_le x y = true) (sort_rows l).
Proof.
  induction l as [|x l IH]; simpl; [constructor|]. apply insert_row_sorted, IH.
Qed.

Lemma rows_balance_perm (l1 l2 : list ledger_row) :
  Permutation l1 l2 -> rows_balance l1 = rows_balance l2.
Proof. induction 1; simpl; lia. Qed.

Lemma rows_balance_entries (created_at : Z -> Z) (es : list ledger_entry) (acc : Z) :
  rows_balance (map (to_row created_at) (entries_of_account es acc)) = sum_entries es acc.
Proof.
  induction es as [|e es IH]; [reflexivity|].
  rewrite sum_entries_cons. unfold entries_of_account in *. simpl.
  destruct (le_account e =? acc); simpl; rewrite IH; [|lia].
  unfold signed_amount. destruct (le_type e); reflexivity.
Qed.

Lemma filter_fresh_account (l : list account) (n : Z) :
  Forall (fun a => acc_id a < n) l -> filter (fun a => acc_id a =? n) l = [].
Proof.
  induction 1 as [|a l Ha _ IH]; simpl; [reflexivity|].
  destruct (Z.eqb_spec (acc_id a) n); [lia|exact IH].
Qed.

Lemma sum_entries_fresh (es : list ledger_entry) (ids : list Z) (n : Z) :
  Forall (fun i => i < n) ids -> Forall (fun e => In (le_account e) ids) es ->
  sum_entries es n = 0.
Proof.
  intros Hi. induction 1 as [|e es He _ IH]; [reflexivity|].
  rewrite sum_entries_cons, IH.
  destruct (Z.eqb_spec (le_account e) n); [|lia].
  rewrite Forall_forall in Hi. specialize (Hi _ He). lia.
Qed.

Lemma round_cents_nonneg (a : dec) : 0 < mant a -> 0 <= round_cents a.
Proof.
  intros Ha. unfold round_cents. rewrite Z.sgn_pos by exact Ha.
  apply Z.mul_nonneg_nonneg; [lia|]. apply Z.div_pos; [|].
  - pose proof (Z.pow_nonneg 10 (Z.of_nat (scale a))). lia.
  - pose proof (Z.pow_pos_nonneg 10 (Z.of_nat (scale a))). lia.
Qed.

Lemma to_numeric_nonneg (a : dec) (c : Z) : 0 < mant a -> to_numeric_14_2 a = Some c -> 0 <= c.
Proof.
  intros Ha. unfold to_numeric_14_2. destruct (Z.abs (round_cents a) <? 10 ^ 14); [|discriminate].
  intros E; injection E as <-. apply round_cents_nonneg, Ha.
Qed.

Ltac nonneg_leaf :=
  unfold balances_nonneg in *; cbn [ledger_entries tbl] in *;
  intros acc;
  repeat match goal with
  | H : Some _ = Some _ |- _ => injection H as H; subst
  | H : (_ <=? _) = false |- _ => apply Z.leb_gt in H
  | H : (_ <? _) = false |- _ => apply Z.ltb_ge in H
  end;
  repeat match goal with
  | H : to_numeric_14_2 ?a = Some ?c, H' : 0 < mant ?a |- _ =>
      pose proof (to_numeric_nonneg a c H' H); clear H
  end;
  rewrite ?sum_entries_app, ?sum_entries_cons, ?sum_entries_nil in *;
  cbn [le_account le_type le_amount signed_amount] in *;
  rewrite ?Z.eqb_refl in *;
  repeat match goal with
  | |- context [?x =? ?y] => destruct (Z.eqb_spec x y); subst
  | H : context [?x =? ?y] |- _ => destruct (Z.eqb_spec x y); subst
  end;
  idtac.
Ltac nonneg_fin :=
  match goal with Hn : forall a, 0 <= sum_entries ?l a |- context [sum_entries ?l ?x] =>
    pose proof (Hn x) end;
  first [congruence | lia].

Section Behaviour.
Context `{JsBuiltins}.

Lemma serve_nonneg (rq : request) (d : db) :
  balances_nonneg (tbl d) -> balances_nonneg (tbl (db_of (handle (serve rq) d))).
Proof.
  intros Hn. destruct rq as [r|r|r|i]; simpl.
  - unfold handle, post_deposits.
    repeat (simpl; split_match); simpl; try exact Hn; nonneg_leaf; nonneg_fin.
  - unfold handle, post_withdrawals.
    repeat (simpl; split_match); simpl; try exact Hn; nonneg_leaf; nonneg_fin.
  - unfold handle, post_transfers.
    repeat (simpl; split_match); simpl; try exact Hn; nonneg_leaf; nonneg_fin.
  - pose proof (get_account_outcome i d) as Ho.
    destruct (handle (get_account i) d) as [[[[e|x] d'] [l|]] tr]; try contradiction.
    destruct Ho as [_ ->]. exact Hn.
Qed.

(** From the try block on, every request gets an HTTP answer (no error
    of a statement escapes the catch blocks) and leaves its connection
    outside any transaction.  The money handlers take their connection
    with pool.connect() before the try block; that step is not part of
    [handle], and its failure would escape with no answer sent. *)
Theorem serve_always_answers (rq : request) (d : db) :
  exists r d' tr, handle (serve rq) d = (inr r, d', None, tr).
Proof.
  destruct rq as [r|r|r|i]; simpl;
    [unfold handle, post_deposits | unfold handle, post_withdrawals
    | unfold handle, post_transfers | unfold handle, get_account];
    repeat (simpl; split_match); simpl; eauto.
Qed.

(** On a well-formed store, a request answered with anything but 201
    leaves the relations exactly as they were. *)
Theorem rejected_request_no_effect (rq : request) (d : db) (r : response) :
  wf d -> resp_of (handle (serve rq) d) = Some r -> status r <> 201 ->
  tbl (db_of (handle (serve rq) d)) = tbl d.
Proof.
  intros Hwf Hr Hs. pose proof (serve_outcome rq d Hwf) as Ho. unfold outcome in Ho.
  destruct (handle (serve rq) d) as [[[[e|x] d'] [l|]] tr]; try contradiction.
  simpl in *. injection Hr as ->.
  destruct Ho as [[_ [Ht _]]|[Hs' _]]; [exact Ht|contradiction].
Qed.

(** Requests served one after the other never make a balance negative:
    if every balance is at least zero, it stays so after any sequence. *)
Theorem sequential_balances_nonneg (rqs : list request) (d : db) :
  balances_nonneg (tbl d) -> balances_nonneg (tbl (run_requests rqs d)).
Proof.
  unfold run_requests. revert d.
  induction rqs as [|rq rqs IH]; intros d Hn; simpl; [exact Hn|].
  apply IH, serve_nonneg, Hn.
Qed.

(** A transfer, whatever its outcome, leaves the sum of all signed
    ledger amounts unchanged. *)
Theorem transfer_conserves_total (req : transfer_req) (d : db) :
  ledger_total (ledger_entries (tbl (db_of (handle (post_transfers req) d))))
  = ledger_total (ledger_entries (tbl d)).
Proof.
  unfold handle, post_transfers.
  repeat (simpl; split_match); simpl; try reflexivity;
  repeat match goal with H : Some _ = Some _ |- _ => injection H as H; subst end;
  rewrite ?ledger_total_app; simpl; unfold signed_amount; simpl; lia.
Qed.

(** A transfer whose source covers the amount answers 201, lowers the
    source's balance and raises the destination's by the amount rounded
    to cents, and leaves every other balance unchanged. *)
Theorem transfer_moves_amount (req : transfer_req) (d : db) (src dst : Z) (a : dec)
  (cs : string) :
  truthy (sourceAccountId req) = true -> truthy (destinationAccountId req) = true ->
  truthy (tr_amount req) = true -> truthy (tr_currency req) = true ->
  parseInt10 (sourceAccountId req) = Some src ->
  parseInt10 (destinationAccountId req) = Some dst ->
  parseFloat (tr_amount req) = Some a -> 0 < mant a -> src <> dst ->
  NoDup (map acc_id (accounts (tbl d))) ->
  In src (map acc_id (accounts (tbl d))) -> In dst (map acc_id (accounts (tbl d))) ->
  Z.abs (round_cents a) < 10 ^ 14 -> to_varchar 10 (tr_currency req) = inr cs ->
  round_cents a <= sum_entries (ledger_entries (tbl d)) src ->
  resp_of (handle (post_transfers req) d) =
    Some {| status := 201; body := transfer_body (seq_tx d) src dst a (tr_currency req) |} /\
  forall acc,
    sum_entries (ledger_entries (tbl (db_of (handle (post_transfers req) d)))) acc =
    sum_entries (ledger_entries (tbl d)) acc
    - (if acc =? src then round_cents a else 0)
    + (if acc =? dst then round_cents a else 0).
Proof.
  intros T1 T2 T3 T4 P1 P2 P3 Ha Hne Hnd Hs Hd Hn Hc Hb.
  rewrite (transfer_success req d src dst a cs) by (assumption || lia).
  split; [reflexivity|]. intros acc. simpl. rewrite sum_entries_snoc2. simpl.
  unfold signed_amount. simpl.
  destruct (Z.eqb_spec src acc), (Z.eqb_spec acc src), (Z.eqb_spec dst acc),
    (Z.eqb_spec acc dst); subst; lia.
Qed.

(** A withdrawal of at most the balance answers 201 and lowers the
    balance by the amount rounded to cents. *)
Theorem withdraw_within_balance (req : account_req) (d : db) (accId : Z) (a : dec)
  (cs : string) :
  truthy (accountId req) = true -> truthy (amount req) = true ->
  truthy (currency req) = true ->
  parseInt10 (accountId req) = Some accId -> parseFloat (amount req) = Some a ->
  0 < mant a -> In accId (map acc_id (accounts (tbl d))) ->
  Z.abs (round_cents a) < 10 ^ 14 -> to_varchar 10 (currency req) = inr cs ->
  round_cents a <= sum_entries (ledger_entries (tbl d)) accId ->
  resp_of (handle (post_withdrawals req) d) =
    Some {| status := 201; body := created_body (seq_tx d) accId a (currency req) |} /\
  sum_entries (ledger_entries (tbl (db_of (handle (post_withdrawals req) d)))) accId =
    sum_entries (ledger_entries (tbl d)) accId - round_cents a.
Proof.
  intros T1 T2 T3 P1 P2 Ha Hin Hn Hc Hb.
  rewrite (withdraw_success req d accId a cs) by (assumption || lia).
  split; [reflexivity|]. simpl. rewrite sum_entries_snoc. simpl.
  rewrite Z.eqb_refl. unfold signed_amount. simpl. lia.
Qed.

(** A positive deposit below half a cent is rounded to 0.00 by
    NUMERIC(14,2): it answers 201 and no balance changes. *)
Theorem subcent_deposit_no_credit (req : account_req) (d : db) (accId : Z) (a : dec)
  (cs : string) :
  truthy (accountId req) = true -> truthy (amount req) = true ->
  truthy (currency req) = true ->
  parseInt10 (accountId req) = Some accId -> parseFloat (amount req) = Some a ->
  0 < mant a -> In accId (map acc_id (accounts (tbl d))) ->
  to_varchar 10 (currency req) = inr cs -> round_cents a = 0 ->
  resp_of (handle (post_deposits req) d) =
    Some {| status := 201; body := created_body (seq_tx d) accId a (currency req) |} /\
  forall acc,
    sum_entries (ledger_entries (tbl (db_of (handle (post_deposits req) d)))) acc =
    sum_entries (ledger_entries (tbl d)) acc.
Proof.
  intros T1 T2 T3 P1 P2 Ha Hin Hc Hz.
  rewrite (deposit_success req d accId a cs) by (try rewrite Hz; (assumption || lia)).
  split; [reflexivity|]. intros acc. simpl. rewrite sum_entries_snoc. simpl.
  unfold signed_amount. simpl. rewrite Hz. destruct (accId =? acc); lia.
Qed.

(** A deposit or withdrawal whose amount overflows NUMERIC(14,2), or
    whose currency does not fit VARCHAR(10), fails at the transaction
    insert, is rolled back and answers 500; the relations are unchanged. *)
Theorem money_overflow_rolls_back (req : account_req) (d : db) (accId : Z) (a : dec) :
  truthy (accountId req) = true -> truthy (amount req) = true ->
  truthy (currency req) = true ->
  parseInt10 (accountId req) = Some accId -> parseFloat (amount req) = Some a ->
  0 < mant a -> In accId (map acc_id (accounts (tbl d))) ->
  10 ^ 14 <= Z.abs (round_cents a) \/ (exists e, to_varchar 10 (currency req) = inl e) ->
  (exists d',
     handle (post_deposits req) d =
       (inr {| status := 500; body := [("message"%string, RVStr "Internal server error")] |},
        d', None,
        [Begin; SelectAccountIds [accId];
         InsertTransaction TDeposit a (currency req) None (Some accId) Pending
           (or_null (description req)); Rollback]) /\
     tbl d' = tbl d) /\
  (exists d',
     handle (post_withdrawals req) d =
       (inr {| status := 500; body := [("message"%string, RVStr "Internal server error")] |},
        d', None,
        [Begin; SelectAccountIds [accId];
         InsertTransaction TWithdrawal a (currency req) (Some accId) None Pending
           (or_null (description req)); Rollback]) /\
     tbl d' = tbl d).
Proof.
  intros T1 T2 T3 P1 P2 Ha Hin Hf.
  unfold handle, post_deposits, post_withdrawals. rewrite T1, T2, T3, P1, P2. simpl.
  replace (mant a <=? 0) with false by (symmetry; apply Z.leb_gt; lia).
  simpl. rewrite id_out_of_range_ok by range_ok. simpl. rewrite select_one_nonempty by exact Hin. simpl.
  destruct Hf as [Ho|[e He]].
  - rewrite to_numeric_overflow by exact Ho. split; eexists; split; reflexivity.
  - rewrite He. destruct (to_numeric_14_2 a); split; eexists; split; reflexivity.
Qed.

(** The same for a transfer between two existing accounts. *)
Theorem transfer_overflow_rolls_back (req : transfer_req) (d : db) (src dst : Z) (a : dec) :
  truthy (sourceAccountId req) = true -> truthy (destinationAccountId req) = true ->
  truthy (tr_amount req) = true -> truthy (tr_currency req) = true ->
  parseInt10 (sourceAccountId req) = Some src ->
  parseInt10 (destinationAccountId req) = Some dst ->
  parseFloat (tr_amount req) = Some a -> 0 < mant a -> src <> dst ->
  NoDup (map acc_id (accounts (tbl d))) ->
  In src (map acc_id (accounts (tbl d))) -> In dst (map acc_id (accounts (tbl d))) ->
  10 ^ 14 <= Z.abs (round_cents a) \/ (exists e, to_varchar 10 (tr_currency req) = inl e) ->
  exists d',
    handle (post_transfers req) d =
      (inr {| status := 500; body := [("message"%string, RVStr "Internal server error")] |},
       d', None,
       [Begin; SelectAccountIds [src; dst];
        InsertTransaction TTransfer a (tr_currency req) (Some src) (Some dst) Pending
          (or_null (tr_description req)); Rollback]) /\
    tbl d' = tbl d.
Proof.
  intros T1 T2 T3 T4 P1 P2 P3 Ha Hne Hnd Hs Hd Hf.
  unfold handle, post_transfers. rewrite T1, T2, T3, T4, P1, P2, P3. simpl.
  replace (mant a <=? 0) with false by (symmetry; apply Z.leb_gt; lia).
  replace (src =? dst) with false by (symmetry; apply Z.eqb_neq; exact Hne).
  simpl. rewrite id_out_of_range_ok by range_ok. simpl. rewrite select_two_found by assumption. simpl.
  destruct Hf as [Ho|[e He]].
  - rewrite to_numeric_overflow by exact Ho. eexists; split; reflexivity.
  - rewrite He. destruct (to_numeric_14_2 a); eexists; split; reflexivity.
Qed.

(** Present fields that parseInt or parseFloat cannot read are answered
    with 400 before any statement is sent, and the store is unchanged. *)
Theorem unparseable_input_rejected :
  (forall req : account_req,
     truthy (accountId req) = true -> truthy (amount req) = true ->
     truthy (currency req) = true ->
     parseInt10 (accountId req) = None \/ parseFloat (amount req) = None ->
     forall d,
       handle (post_deposits req) d =
         (inr {| status := 400;
                 body := [("message"%string, RVStr "Invalid accountId or amount")] |},
          d, None, []) /\
       handle (post_withdrawals req) d =
         (inr {| status := 400;
                 body := [("message"%string, RVStr "Invalid accountId or amount")] |},
          d, None, [])) /\
  (forall req : transfer_req,
     truthy (sourceAccountId req) = true -> truthy (destinationAccountId req) = true ->
     truthy (tr_amount req) = true -> truthy (tr_currency req) = true ->
     parseInt10 (sourceAccountId req) = None \/
     parseInt10 (destinationAccountId req) = None \/ parseFloat (tr_amount req) = None ->
     forall d,
       handle (post_transfers req) d =
         (inr {| status := 400;
                 body := [("message"%string, RVStr "Invalid account ids or amount")] |},
          d, None, [])).
Proof.
  split.
  - intros req T1 T2 T3 Hp d. unfold handle, post_deposits, post_withdrawals.
    rewrite T1, T2, T3. simpl.
    destruct Hp as [Hp|Hp]; rewrite Hp;
      [|destruct (parseInt10 (accountId req))]; split; reflexivity.
  - intros req T1 T2 T3 T4 Hp d. unfold handle, post_transfers.
    rewrite T1, T2, T3, T4. simpl.
    destruct Hp as [Hp|[Hp|Hp]]; rewrite Hp;
      [|destruct (parseInt10 (sourceAccountId req))
       |destruct (parseInt10 (sourceAccountId req)), (parseInt10 (destinationAccountId req))];
      reflexivity.
Qed.

(** The status codes each request can answer with. *)
Theorem status_codes (rq : request) (d : db) :
  match handle (serve rq) d with
  | (inr r, _, _, _) =>
      In (status r)
        match rq with
        | RDeposit _ => [201; 400; 404; 500]
        | RWithdraw _ | RTransfer _ => [201; 400; 404; 422; 500]
        | RGetAccount _ => [200; 400; 404; 500]
        end
  | _ => False
  end.
Proof.
  destruct rq as [r|r|r|i]; simpl;
    [unfold handle, post_deposits | unfold handle, post_withdrawals
    | unfold handle, post_transfers | unfold handle, get_account];
    repeat (simpl; split_match); simpl; tauto.
Qed.

(** GET /accounts/:id answers 400 for an id parseInt cannot read, with
    no statement sent.  For an id with no account it sends one SELECT and
    answers 404 when the id is an INTEGER, 500 when it is not (the SELECT
    fails).  The store is unchanged. *)
Theorem get_account_errors (s : string) (d : db) :
  (parseInt10 (JStr s) = None ->
   handle (get_account s) d =
     (inr {| status := 400; body := [("message"%string, RVStr "Invalid account id")] |},
      d, None, [])) /\
  (forall accId, parseInt10 (JStr s) = Some accId ->
   ~ In accId (map acc_id (accounts (tbl d))) ->
   (in_int4 accId = true ->
    handle (get_account s) d =
      (inr {| status := 404; body := [("message"%string, RVStr "Account not found")] |},
       d, None, [SelectAccount accId])) /\
   (in_int4 accId = false ->
    handle (get_account s) d =
      (inr {| status := 500; body := [("message"%string, RVStr "Internal server error")] |},
       d, None, [SelectAccount accId]))).
Proof.
  split.
  - intros P. unfold handle, get_account. rewrite P. reflexivity.
  - intros accId P Hn. split; intros Hr; unfold handle, get_account; rewrite P; simpl.
    + rewrite id_out_of_range_ok by range_ok. simpl.
      replace (filter (fun a => acc_id a =? accId) (accounts (tbl d))) with (@nil account).
      * reflexivity.
      * clear Hr. induction (accounts (tbl d)) as [|x l IH]; simpl in *; [reflexivity|].
        destruct (Z.eqb_spec (acc_id x) accId); [tauto|]. apply IH. tauto.
    + rewrite id_out_of_range_bad by (constructor; split; assumption). reflexivity.
Qed.

End Behaviour.

Section PoolProps.
Context `{JsBuiltins}.
Variable created_at : Z -> Z.

(** POST /accounts with a falsy userId, type or currency answers 400
    without a statement. *)
Theorem post_accounts_missing_field (req : create_req) (pd : pool_db) :
  truthy (userId req) = false \/ truthy (acc_kind req) = false \/
  truthy (acc_cur req) = false ->
  prun created_at (post_accounts req) pd =
    (inr {| status := 400;
            body := [("message"%string, RVStr "userId, type, and currency are required")] |},
     pd, []).
Proof.
  intros Hf. unfold post_accounts.
  destruct Hf as [Hf|[Hf|Hf]]; rewrite Hf; simpl;
    [|destruct (truthy (userId req))|destruct (truthy (userId req)), (truthy (acc_kind req))];
    reflexivity.
Qed.

(** POST /accounts with fields that fit their columns creates one
    'active' account with the next, unused id, answers 201 with the row,
    and keeps the store well-formed. *)
Theorem post_accounts_creates (req : create_req) (pd : pool_db) (us ts cs : string) :
  pool_wf pd ->
  truthy (userId req) = true -> truthy (acc_kind req) = true -> truthy (acc_cur req) = true ->
  to_varchar 100 (userId req) = inr us -> to_varchar 50 (acc_kind req) = inr ts ->
  to_varchar 10 (acc_cur req) = inr cs ->
  let a := {| acc_id := seq_account pd; acc_user := us; acc_type := ts;
              acc_currency := cs; acc_status := "active" |} in
  ~ In (acc_id a) (map acc_id (accounts (tbl (base pd)))) /\
  exists pd',
    prun created_at (post_accounts req) pd =
      (inr {| status := 201; body := account_body a |}, pd',
       [InsertAccount (userId req) (acc_kind req) (acc_cur req)]) /\
    accounts (tbl (base pd')) = accounts (tbl (base pd)) ++ [a] /\
    transactions (tbl (base pd')) = transactions (tbl (base pd)) /\
    ledger_entries (tbl (base pd')) = ledger_entries (tbl (base pd)) /\
    seq_account pd' = seq_account pd + 1 /\
    pool_wf pd'.
Proof.
  intros [Ha He] T1 T2 T3 V1 V2 V3 a. split.
  - intros Hin. apply in_map_iff in Hin. destruct Hin as [x [Hx Hin]].
    rewrite Forall_forall in Ha. specialize (Ha x Hin). simpl in Hx. lia.
  - eexists. unfold post_accounts. rewrite T1, T2, T3. simpl.
    rewrite V1, V2, V3. split; [reflexivity|]. simpl.
    repeat split; try reflexivity.
    + apply Forall_app. split.
      * eapply Forall_impl; [|exact Ha]. simpl. intros x Hx. lia.
      * repeat constructor. simpl. lia.
    + eapply Forall_impl; [|exact He]. simpl. intros e Hin.
      rewrite map_app. apply in_or_app. left. exact Hin.
Qed.

(** POST /accounts with a field too long for its column answers 500 and
    creates nothing. *)
Theorem post_accounts_column_error (req : create_req) (pd : pool_db) (e : sql_error) :
  truthy (userId req) = true -> truthy (acc_kind req) = true -> truthy (acc_cur req) = true ->
  to_varchar 100 (userId req) = inl e \/ to_varchar 50 (acc_kind req) = inl e \/
  to_varchar 10 (acc_cur req) = inl e ->
  exists pd',
    prun created_at (post_accounts req) pd =
      (inr {| status := 500; body := [("message"%string, RVStr "Internal server error")] |},
       pd', [InsertAccount (userId req) (acc_kind req) (acc_cur req)]) /\
    base pd' = base pd.
Proof.
  intros T1 T2 T3 Hf. unfold post_accounts. rewrite T1, T2, T3. simpl.
  destruct Hf as [Hf|[Hf|Hf]]; rewrite Hf;
    [|destruct (to_varchar 100 (userId req))
     |destruct (to_varchar 100 (userId req)), (to_varchar 50 (acc_kind req))];
    eexists; split; reflexivity.
Qed.

(** An account just created is found by GET /accounts/:id with the same
    fields and a balance of 0. *)
Theorem create_then_get (req : create_req) (pd : pool_db) (us ts cs : string) (s : string) :
  pool_wf pd ->
  truthy (userId req) = true -> truthy (acc_kind req) = true -> truthy (acc_cur req) = true ->
  to_varchar 100 (userId req) = inr us -> to_varchar 50 (acc_kind req) = inr ts ->
  to_varchar 10 (acc_cur req) = inr cs ->
  parseInt10 (JStr s) = Some (seq_account pd) ->
  match prun created_at (post_accounts req) pd with
  | (inr r, pd', _) =>
      resp_of (handle (get_account s) (base pd')) =
        Some {| status := 200;
                body := body r ++ [("balance"%string, RVNumeric 0)] |}
  | _ => False
  end.
Proof.
  intros [Ha He] T1 T2 T3 V1 V2 V3 P.
  unfold post_accounts. rewrite T1, T2, T3. simpl. rewrite V1, V2, V3. simpl.
  unfold handle, get_account. rewrite P. simpl.
  rewrite id_out_of_range_ok.
  2:{ constructor; [|constructor]. right. rewrite map_app. apply in_or_app.
      right. left. reflexivity. }
  simpl.
  rewrite filter_app, filter_fresh_account by exact Ha. simpl. rewrite Z.eqb_refl. simpl.
  rewrite (sum_entries_fresh _ (map acc_id (accounts (tbl (base pd))))).
  - reflexivity.
  - rewrite Forall_map. exact Ha.
  - exact He.
Qed.

(** GET /accounts/:id/ledger answers 400 for an id parseInt cannot read.
    For an id with no account it answers 404 when the id is an INTEGER and
    500 when it is not (the SELECT fails).  The store is unchanged. *)
Theorem get_ledger_errors (s : string) (pd : pool_db) :
  (parseInt10 (JStr s) = None ->
   prun created_at (get_ledger s) pd =
     (inr {| l_status := 400; l_body := LMessage "Invalid account id" |}, pd, [])) /\
  (forall i, parseInt10 (JStr s) = Some i ->
   ~ In i (map acc_id (accounts (tbl (base pd)))) ->
   (in_int4 i = true ->
    prun created_at (get_ledger s) pd =
      (inr {| l_status := 404; l_body := LMessage "Account not found" |}, pd,
       [SelectAccountId i])) /\
   (in_int4 i = false ->
    prun created_at (get_ledger s) pd =
      (inr {| l_status := 500; l_body := LMessage "Internal server error" |}, pd,
       [SelectAccountId i]))).
Proof.
  split.
  - intros P. unfold get_ledger. rewrite P. reflexivity.
  - intros i P Hn. split; intros Hr; unfold get_ledger; rewrite P; simpl.
    + rewrite id_out_of_range_ok by range_ok. simpl.
      pose proof (select_one_empty _ _ Hn) as E. rewrite E. reflexivity.
    + rewrite id_out_of_range_bad by (constructor; split; assumption). reflexivity.
Qed.

Lemma get_ledger_found (s : string) (pd : pool_db) (i : Z) :
  parseInt10 (JStr s) = Some i -> In i (map acc_id (accounts (tbl (base pd)))) ->
  prun created_at (get_ledger s) pd =
    (inr {| l_status := 200;
            l_body := LEntries i (sort_rows (map (to_row created_at)
                        (entries_of_account (ledger_entries (tbl (base pd))) i))) |},
     pd, [SelectAccountId i; SelectEntries i]).
Proof.
  intros P Hin. unfold get_ledger. rewrite P. simpl.
  rewrite id_out_of_range_ok by range_ok. simpl.
  pose proof (select_one_nonempty _ _ Hin) as E. rewrite E. reflexivity.
Qed.

(** For an existing account, GET /accounts/:id/ledger answers 200 with
    exactly the account's entries, ordered by (created_at, id). *)
Theorem get_ledger_listing (s : string) (pd : pool_db) (i : Z) :
  parseInt10 (JStr s) = Some i -> In i (map acc_id (accounts (tbl (base pd)))) ->
  exists rows,
    prun created_at (get_ledger s) pd =
      (inr {| l_status := 200; l_body := LEntries i rows |}, pd,
       [SelectAccountId i; SelectEntries i]) /\
    Permutation rows
      (map (to_row created_at) (entries_of_account (ledger_entries (tbl (base pd))) i)) /\
    Sorted (fun x y => row_le x y = true) rows.
Proof.
  intros P Hin. eexists. split; [exact (get_ledger_found s pd i P Hin)|].
  split; [apply sort_rows_perm|apply sort_rows_sorted].
Qed.

(** The signed sum of the rows GET /accounts/:id/ledger lists is the
    balance GET /accounts/:id reports for the same account. *)
Theorem ledger_matches_balance (s : string) (pd : pool_db) (i : Z) :
  parseInt10 (JStr s) = Some i -> In i (map acc_id (accounts (tbl (base pd)))) ->
  exists rows r,
    prun created_at (get_ledger s) pd =
      (inr {| l_status := 200; l_body := LEntries i rows |}, pd,
       [SelectAccountId i; SelectEntries i]) /\
    resp_of (handle (get_account s) (base pd)) = Some r /\ status r = 200 /\
    In ("balance"%string, RVNumeric (rows_balance rows)) (body r).
Proof.
  intros P Hin. destruct (select_account_found _ _ Hin) as [x [rest Hx]].
  do 2 eexists. split; [exact (get_ledger_found s pd i P Hin)|].
  unfold handle, get_account. rewrite P. simpl. rewrite Hx. simpl.
  rewrite id_out_of_range_ok by range_ok. simpl.
  split; [reflexivity|]. split; [reflexivity|].
  rewrite (rows_balance_perm _ _ (sort_rows_perm _)), rows_balance_entries. simpl. tauto.
Qed.

End PoolProps.


(* ------------------------------------------------------------------ *)
(** ** Concrete runs with the builtins of [js_default] *)

Section Concrete.
#[local] Existing Instance js_default.

(** Facts about a concrete store or request, evaluated. *)
Ltac concrete :=
  first
  [ reflexivity
  | discriminate
  | vm_compute; reflexivity
  | unfold wf; vm_compute; repeat split; repeat constructor; simpl; intuition discriminate
  | vm_compute; repeat constructor; simpl; intuition discriminate
  | vm_compute; tauto
  | vm_compute; intuition discriminate ].

Lemma insufficient_funds_rolls_back_witness :
  (exists d' tr,
     handle (post_withdrawals (money 1 "60.00")) db0 =
       (inr {| status := 422; body := [("message"%string, RVStr "Insufficient funds")] |},
        d', None, tr) /\
     tbl d' = tbl db0 /\
     entries_of_account (ledger_entries (tbl d')) 1
       = entries_of_account (ledger_entries (tbl db0)) 1) /\
  (exists d' tr,
     handle (post_transfers (transfer 1 2 "60.00")) db0 =
       (inr {| status := 422; body := [("message"%string, RVStr "Insufficient funds")] |},
        d', None, tr) /\
     tbl d' = tbl db0 /\
     entries_of_account (ledger_entries (tbl d')) 1
       = entries_of_account (ledger_entries (tbl db0)) 1).
Proof.
  split.
  - apply (proj1 insufficient_funds_rolls_back (money 1 "60.00") db0 1 (Dec 6000 2) "INR"%string);
      concrete.
  - apply (proj2 insufficient_funds_rolls_back (transfer 1 2 "60.00") db0 1 2 (Dec 6000 2) "INR"%string);
      concrete.
Defined.

Lemma reported_balance_recomputed_witness :
  exists r,
    resp_of (handle (get_account "1") db100) = Some r /\ status r = 200 /\
    map fst (body r) = ["id"; "userId"; "type"; "currency"; "status"; "balance"]%string /\
    In ("balance"%string, RVNumeric (spec_balance (ledger_entries (tbl db100)) 1)) (body r) /\
    (entries_of_account (ledger_entries (tbl db100)) 1 = [] ->
     spec_balance (ledger_entries (tbl db100)) 1 = 0).
Proof.
  apply (reported_balance_recomputed "1"%string db100 1); concrete.
Defined.

Lemma transfer_two_legs_witness :
  match handle (post_transfers (transfer 1 2 "50.00")) db100 with
  | (inr r, d', None, _) =>
      (status r = 201 /\ In ("transactionId"%string, RVInt (seq_tx db100)) (body r) /\
       exists src dst c cs,
         tbl d' = appended db100
                    (tx_row (seq_tx db100) TTransfer c cs (Some src) (Some dst) Completed
                       (or_null (tr_description (transfer 1 2 "50.00"))))
                    [entry_row (seq_entry db100) (seq_tx db100) src Debit c;
                     entry_row (seq_entry db100 + 1) (seq_tx db100) dst Credit c] /\
         entries_of_tx (ledger_entries (tbl d')) (seq_tx db100) =
           [entry_row (seq_entry db100) (seq_tx db100) src Debit c;
            entry_row (seq_entry db100 + 1) (seq_tx db100) dst Credit c])
      \/ (status r <> 201 /\ ledger_entries (tbl d') = ledger_entries (tbl db100))
  | _ => False
  end /\
  (forall rqs, legs_ok (tbl db100) -> legs_ok (tbl (run_requests rqs db100))).
Proof.
  apply (transfer_two_legs (transfer 1 2 "50.00") db100); concrete.
Defined.

(** C4: the reply to a deposit of 100.00 into account 1 carries no new
    balance. *)
Lemma deposit_reply_counterexample :
  resp_of (handle (post_deposits (money 1 "100.00")) db0) =
    Some {| status := 201; body := created_body 1 1 (Dec 10000 2) (JStr "INR") |} /\
  ~ In "newBalance"%string (map fst (created_body 1 1 (Dec 10000 2) (JStr "INR"))).
Proof.
  split; [vm_compute; reflexivity|].
  simpl. intros [H|[H|[H|[H|[H|[]]]]]]; discriminate H.
Qed.

Lemma deposit_reply_and_balance_witness :
  exists d' tr,
    handle (post_deposits (money 1 "100.00")) db0 =
      (inr {| status := 201; body := created_body (seq_tx db0) 1 (Dec 10000 2) (JStr "INR") |},
       d', None, tr) /\
    map fst (created_body (seq_tx db0) 1 (Dec 10000 2) (JStr "INR"))
      = ["transactionId"; "status"; "accountId"; "amount"; "currency"]%string /\
    sum_entries (ledger_entries (tbl d')) 1
      = sum_entries (ledger_entries (tbl db0)) 1 + round_cents (Dec 10000 2).
Proof.
  apply (deposit_reply_and_balance (money 1 "100.00") db0 1 (Dec 10000 2) "INR"%string); concrete.
Defined.

Lemma cent_deposits_exact_witness :
  round_cents (Dec 5 1) = 50 /\
  amounts_from (JStr "0.01") db0 (db_of (handle (serve (RDeposit (money 1 "0.01"))) db0)) /\
  sum_entries (ledger_entries (tbl (repeat_deposit 3 (money 1 "12.34") db0))) 1 = 3702 /\
  sum_entries (ledger_entries (tbl (repeat_deposit 10000 (money 1 "0.01") db0))) 1
    = sum_entries (ledger_entries (tbl db0)) 1 + 10000.
Proof.
  split; [|split; [|split]].
  - rewrite (proj1 cent_deposits_exact (Dec 5 1)) by (simpl; lia). reflexivity.
  - exact (proj1 (proj2 cent_deposits_exact) (RDeposit (money 1 "0.01")) db0).
  - rewrite (proj1 (proj2 (proj2 cent_deposits_exact)) (money 1 "12.34") db0 1 (Dec 1234 2)
               "INR"%string); concrete.
  - apply (proj2 (proj2 (proj2 cent_deposits_exact)) (money 1 "0.01") db0 1 "INR"%string);
      concrete.
Defined.

Lemma transactions_completed_witness :
  let rq := RWithdraw (money 1 "60.00") in
  all_completed (tbl (db_of (handle (serve rq) db100))) /\
  (transactions (tbl (db_of (handle (serve rq) db100))) = transactions (tbl db100) \/
   exists x, transactions (tbl (db_of (handle (serve rq) db100)))
               = transactions (tbl db100) ++ [x] /\ tx_status x = Completed) /\
  Forall (eq Pending) (inserted_statuses (trace_of (handle (serve rq) db100))) /\
  Forall (eq Completed) (status_updates (trace_of (handle (serve rq) db100))) /\
  (length (status_updates (trace_of (handle (serve rq) db100))) <= 1)%nat /\
  (forall rqs, all_completed (tbl (run_requests rqs db100))).
Proof.
  apply (transactions_completed (RWithdraw (money 1 "60.00")) db100); concrete.
Defined.

Lemma invalid_input_untouched_witness :
  ((exists r, status r = 400 /\
      forall d, handle (post_deposits (money 1 "0.00")) d = (inr r, d, None, [])) /\
   (exists r, status r = 400 /\
      forall d, handle (post_withdrawals (money 1 "0.00")) d = (inr r, d, None, []))) /\
  (exists r, status r = 400 /\
     forall d, handle (post_transfers (transfer 1 1 "5.00")) d = (inr r, d, None, [])).
Proof.
  split.
  - apply (proj1 invalid_input_untouched (money 1 "0.00")).
    right; right; right. exists (Dec 0 2). split; concrete.
  - apply (proj2 invalid_input_untouched (transfer 1 1 "5.00")).
    right; right; right; right; right. exists 1. split; concrete.
Defined.

Lemma not_found_aborts_witness :
  ((handle (post_deposits (money 3 "5.00")) db0 =
      (inr {| status := 404; body := [("message"%string, RVStr "Account not found")] |},
       db0, None, [Begin; SelectAccountIds [3]; Rollback]) /\
    handle (post_withdrawals (money 3 "5.00")) db0 =
      (inr {| status := 404; body := [("message"%string, RVStr "Account not found")] |},
       db0, None, [Begin; SelectAccountIds [3]; Rollback])) /\
   handle (post_transfers (transfer 1 3 "5.00")) db0 =
     (inr {| status := 404;
             body := [("message"%string, RVStr "One or both accounts not found")] |},
      db0, None, [Begin; SelectAccountIds [1; 3]; Rollback])) /\
  ((handle (post_deposits (money 99999999999 "5.00")) db0 =
      (inr {| status := 500; body := [("message"%string, RVStr "Internal server error")] |},
       db0, None, [Begin; SelectAccountIds [99999999999]; Rollback]) /\
    handle (post_withdrawals (money 99999999999 "5.00")) db0 =
      (inr {| status := 500; body := [("message"%string, RVStr "Internal server error")] |},
       db0, None, [Begin; SelectAccountIds [99999999999]; Rollback])) /\
   handle (post_transfers (transfer 1 99999999999 "5.00")) db0 =
     (inr {| status := 500; body := [("message"%string, RVStr "Internal server error")] |},
      db0, None, [Begin; SelectAccountIds [1; 99999999999]; Rollback])).
Proof.
  split; split.
  - refine (proj1 (proj1 not_found_aborts (money 3 "5.00") db0 3 (Dec 500 2)
                     _ _ _ _ _ _ _) _); concrete.
  - refine (proj1 (proj2 not_found_aborts (transfer 1 3 "5.00") db0 1 3 (Dec 500 2)
                     _ _ _ _ _ _ _ _ _ _ (or_intror _)) _ _); concrete.
  - refine (proj2 (proj1 not_found_aborts (money 99999999999 "5.00") db0 99999999999
                     (Dec 500 2) _ _ _ _ _ _ _) _); concrete.
  - refine (proj2 (proj2 not_found_aborts (transfer 1 99999999999 "5.00") db0 1 99999999999
                     (Dec 500 2) _ _ _ _ _ _ _ _ _ _ (or_intror _))
                  ltac:(simpl; repeat constructor) (or_intror _));
      concrete.
Defined.

(** C8: a deposit to account 99999999999, which does not exist, is not
    answered 404 Account not found: the id is no INTEGER, the existence
    query fails, and the answer is 500. *)
Lemma not_found_counterexample :
  ~ In 99999999999 (map acc_id (accounts (tbl db0))) /\
  resp_of (handle (post_deposits (money 99999999999 "5.00")) db0) =
    Some {| status := 500; body := [("message"%string, RVStr "Internal server error")] |}.
Proof.
  split; [simpl; lia|vm_compute; reflexivity].
Qed.

(** C9: two withdrawals of 60.00 from account 1 holding 100.00, both
    reading the balance before either commits: both answer 201 and the
    balance ends at -20.00. *)
Lemma concurrent_withdrawals_counterexample :
  match interleave race_schedule (post_withdrawals (money 1 "60.00"))
          (post_withdrawals (money 1 "60.00")) None None db100 with
  | (Ret r1, Ret r2, d') =>
      sum_entries (ledger_entries (tbl db100)) 1 = 10000 /\
      status r1 = 201 /\ status r2 = 201 /\ sum_entries (ledger_entries (tbl d')) 1 = -2000
  | _ => False
  end.
Proof.
  vm_compute. repeat split.
Qed.

Lemma withdrawals_serial_or_race_witness :
  (option_map status (resp_of (handle (post_withdrawals (money 1 "60.00")) db100)) = Some 201 /\
   option_map status (resp_of (handle (post_withdrawals (money 1 "60.00"))
                                 (db_of (handle (post_withdrawals (money 1 "60.00")) db100))))
     = Some 422) /\
  match interleave race_schedule (post_withdrawals (money 1 "60.00"))
          (post_withdrawals (money 1 "60.00")) None None db100 with
  | (Ret r1, Ret r2, d') =>
      status r1 = 201 /\ status r2 = 201 /\
      sum_entries (ledger_entries (tbl d')) 1
        = sum_entries (ledger_entries (tbl db100)) 1 - 2 * round_cents (Dec 6000 2) /\
      sum_entries (ledger_entries (tbl d')) 1 < 0
  | _ => False
  end.
Proof.
  apply (withdrawals_serial_or_race (money 1 "60.00") db100 1 (Dec 6000 2) "INR"%string); concrete.
Defined.

Lemma zero_fields_missing_witness :
  (handle (post_deposits (money 0 "5.00")) db0 =
     (inr {| status := 400;
             body := [("message"%string,
                       RVStr "accountId, amount, and currency are required")] |},
      db0, None, []) /\
   handle (post_withdrawals (money 0 "5.00")) db0 =
     (inr {| status := 400;
             body := [("message"%string,
                       RVStr "accountId, amount, and currency are required")] |},
      db0, None, [])) /\
  handle (post_transfers (transfer 0 2 "5.00")) db0 =
    (inr {| status := 400;
            body := [("message"%string, RVStr
              "sourceAccountId, destinationAccountId, amount, and currency are required")] |},
     db0, None, []).
Proof.
  split.
  - apply (proj1 zero_fields_missing (money 0 "5.00") (Dec 0 0)); [reflexivity|left; reflexivity].
  - apply (proj2 zero_fields_missing (transfer 0 2 "5.00") (Dec 0 0));
      [reflexivity|left; reflexivity].
Defined.

Lemma rejected_request_no_effect_witness :
  tbl (db_of (handle (serve (RWithdraw (money 1 "60.00"))) db0)) = tbl db0.
Proof.
  apply (rejected_request_no_effect (RWithdraw (money 1 "60.00")) db0
    {| status := 422; body := [("message"%string, RVStr "Insufficient funds")] |}); concrete.
Defined.

Lemma sequential_balances_nonneg_witness :
  balances_nonneg (tbl (run_requests
    [RDeposit (money 1 "100.00"); RWithdraw (money 1 "60.00");
     RTransfer (transfer 1 2 "50.00"); RWithdraw (money 1 "60.00")] db0)).
Proof.
  apply sequential_balances_nonneg. unfold balances_nonneg. intros acc. vm_compute. discriminate.
Defined.

Lemma transfer_moves_amount_witness :
  resp_of (handle (post_transfers (transfer 1 2 "50.00")) db100) =
    Some {| status := 201;
            body := transfer_body (seq_tx db100) 1 2 (Dec 5000 2) (JStr "INR") |} /\
  forall acc,
    sum_entries (ledger_entries (tbl (db_of (handle (post_transfers (transfer 1 2 "50.00")) db100)))) acc =
    sum_entries (ledger_entries (tbl db100)) acc
    - (if acc =? 1 then round_cents (Dec 5000 2) else 0)
    + (if acc =? 2 then round_cents (Dec 5000 2) else 0).
Proof.
  apply (transfer_moves_amount (transfer 1 2 "50.00") db100 1 2 (Dec 5000 2) "INR"%string);
    concrete.
Defined.

Lemma withdraw_within_balance_witness :
  resp_of (handle (post_withdrawals (money 1 "60.00")) db100) =
    Some {| status := 201; body := created_body (seq_tx db100) 1 (Dec 6000 2) (JStr "INR") |} /\
  sum_entries (ledger_entries (tbl (db_of (handle (post_withdrawals (money 1 "60.00")) db100)))) 1 =
    sum_entries (ledger_entries (tbl db100)) 1 - round_cents (Dec 6000 2).
Proof.
  apply (withdraw_within_balance (money 1 "60.00") db100 1 (Dec 6000 2) "INR"%string); concrete.
Defined.

Lemma subcent_deposit_no_credit_witness :
  resp_of (handle (post_deposits (money 1 "0.004")) db100) =
    Some {| status := 201; body := created_body (seq_tx db100) 1 (Dec 4 3) (JStr "INR") |} /\
  forall acc,
    sum_entries (ledger_entries (tbl (db_of (handle (post_deposits (money 1 "0.004")) db100)))) acc =
    sum_entries (ledger_entries (tbl db100)) acc.
Proof.
  apply (subcent_deposit_no_credit (money 1 "0.004") db100 1 (Dec 4 3) "INR"%string); concrete.
Defined.

Lemma money_overflow_rolls_back_witness :
  (exists d',
     handle (post_deposits (money 1 "1000000000000.00")) db0 =
       (inr {| status := 500; body := [("message"%string, RVStr "Internal server error")] |},
        d', None,
        [Begin; SelectAccountIds [1];
         InsertTransaction TDeposit (Dec 100000000000000 2) (JStr "INR") None (Some 1) Pending
           JNull; Rollback]) /\
     tbl d' = tbl db0) /\
  (exists d',
     handle (post_withdrawals (money 1 "1000000000000.00")) db0 =
       (inr {| status := 500; body := [("message"%string, RVStr "Internal server error")] |},
        d', None,
        [Begin; SelectAccountIds [1];
         InsertTransaction TWithdrawal (Dec 100000000000000 2) (JStr "INR") (Some 1) None
           Pending JNull; Rollback]) /\
     tbl d' = tbl db0).
Proof.
  apply (money_overflow_rolls_back (money 1 "1000000000000.00") db0 1 (Dec 100000000000000 2));
    concrete.
Defined.

Lemma transfer_overflow_rolls_back_witness :
  exists d',
    handle (post_transfers {| sourceAccountId := JNum (Dec 1 0);
                              destinationAccountId := JNum (Dec 2 0);
                              tr_amount := JStr "10.00"; tr_currency := JStr "RUPEES-INDIA";
                              tr_description := JUndefined |}) db100 =
      (inr {| status := 500; body := [("message"%string, RVStr "Internal server error")] |},
       d', None,
       [Begin; SelectAccountIds [1; 2];
        InsertTransaction TTransfer (Dec 1000 2) (JStr "RUPEES-INDIA") (Some 1) (Some 2)
          Pending JNull; Rollback]) /\
    tbl d' = tbl db100.
Proof.
  apply (transfer_overflow_rolls_back {| sourceAccountId := JNum (Dec 1 0);
                            destinationAccountId := JNum (Dec 2 0);
                            tr_amount := JStr "10.00"; tr_currency := JStr "RUPEES-INDIA";
                            tr_description := JUndefined |} db100 1 2 (Dec 1000 2));
    try concrete.
  right. eexists. vm_compute. reflexivity.
Defined.

Lemma unparseable_input_rejected_witness :
  (forall d,
     handle (post_deposits (money 1 "abc")) d =
       (inr {| status := 400;
               body := [("message"%string, RVStr "Invalid accountId or amount")] |},
        d, None, []) /\
     handle (post_withdrawals (money 1 "abc")) d =
       (inr {| status := 400;
               body := [("message"%string, RVStr "Invalid accountId or amount")] |},
        d, None, [])) /\
  (forall d,
     handle (post_transfers (transfer 1 2 "abc")) d =
       (inr {| status := 400;
               body := [("message"%string, RVStr "Invalid account ids or amount")] |},
        d, None, [])).
Proof.
  split; [apply (proj1 unparseable_input_rejected (money 1 "abc"))
         |apply (proj2 unparseable_input_rejected (transfer 1 2 "abc"))]; concrete.
Defined.

Lemma get_account_errors_witness :
  handle (get_account "abc") db0 =
    (inr {| status := 400; body := [("message"%string, RVStr "Invalid account id")] |},
     db0, None, []) /\
  handle (get_account "7") db0 =
    (inr {| status := 404; body := [("message"%string, RVStr "Account not found")] |},
     db0, None, [SelectAccount 7]) /\
  handle (get_account "99999999999") db0 =
    (inr {| status := 500; body := [("message"%string, RVStr "Internal server error")] |},
     db0, None, [SelectAccount 99999999999]).
Proof.
  split; [|split].
  - refine (proj1 (get_account_errors "abc" db0) _); concrete.
  - refine (proj1 (proj2 (get_account_errors "7" db0) 7 _ _) _); concrete.
  - refine (proj2 (proj2 (get_account_errors "99999999999" db0) 99999999999 _ _) _);
      concrete.
Defined.

Lemma post_accounts_missing_field_witness :
  prun clock_by_id (post_accounts {| userId := JUndefined; acc_kind := JStr "savings";
                                     acc_cur := JStr "INR" |}) pd100 =
    (inr {| status := 400;
            body := [("message"%string, RVStr "userId, type, and currency are required")] |},
     pd100, []).
Proof.
  apply (post_accounts_missing_field clock_by_id
           {| userId := JUndefined; acc_kind := JStr "savings"; acc_cur := JStr "INR" |} pd100);
    concrete.
Defined.

Lemma post_accounts_creates_witness :
  let a := {| acc_id := 3; acc_user := "user3"; acc_type := "savings";
              acc_currency := "INR"; acc_status := "active" |} in
  ~ In (acc_id a) (map acc_id (accounts (tbl (base pd100)))) /\
  exists pd',
    prun clock_by_id (post_accounts new_req) pd100 =
      (inr {| status := 201; body := account_body a |}, pd',
       [InsertAccount (userId new_req) (acc_kind new_req) (acc_cur new_req)]) /\
    accounts (tbl (base pd')) = accounts (tbl (base pd100)) ++ [a] /\
    transactions (tbl (base pd')) = transactions (tbl (base pd100)) /\
    ledger_entries (tbl (base pd')) = ledger_entries (tbl (base pd100)) /\
    seq_account pd' = seq_account pd100 + 1 /\
    pool_wf pd'.
Proof.
  apply (post_accounts_creates clock_by_id new_req pd100 "user3" "savings" "INR");
    concrete.
Defined.

Lemma post_accounts_column_error_witness :
  exists pd',
    prun clock_by_id (post_accounts {| userId := JStr "user3"; acc_kind := JStr "savings";
                                       acc_cur := JStr "RUPEES-INDIA" |}) pd100 =
      (inr {| status := 500; body := [("message"%string, RVStr "Internal server error")] |},
       pd', [InsertAccount (JStr "user3") (JStr "savings") (JStr "RUPEES-INDIA")]) /\
    base pd' = base pd100.
Proof.
  apply (post_accounts_column_error clock_by_id
           {| userId := JStr "user3"; acc_kind := JStr "savings";
              acc_cur := JStr "RUPEES-INDIA" |} pd100 StringTooLong); concrete.
Defined.

Lemma create_then_get_witness :
  match prun clock_by_id (post_accounts new_req) pd100 with
  | (inr r, pd', _) =>
      resp_of (handle (get_account "3") (base pd')) =
        Some {| status := 200; body := body r ++ [("balance"%string, RVNumeric 0)] |}
  | _ => False
  end.
Proof.
  apply (create_then_get clock_by_id new_req pd100 "user3" "savings" "INR" "3");
    concrete.
Defined.

Lemma get_ledger_errors_witness :
  prun clock_by_id (get_ledger "abc") pd100 =
    (inr {| l_status := 400; l_body := LMessage "Invalid account id" |}, pd100, []) /\
  prun clock_by_id (get_ledger "7") pd100 =
    (inr {| l_status := 404; l_body := LMessage "Account not found" |}, pd100,
     [SelectAccountId 7]) /\
  prun clock_by_id (get_ledger "99999999999") pd100 =
    (inr {| l_status := 500; l_body := LMessage "Internal server error" |}, pd100,
     [SelectAccountId 99999999999]).
Proof.
  split; [|split].
  - refine (proj1 (get_ledger_errors clock_by_id "abc" pd100) _); concrete.
  - refine (proj1 (proj2 (get_ledger_errors clock_by_id "7" pd100) 7 _ _) _); concrete.
  - refine (proj2 (proj2 (get_ledger_errors clock_by_id "99999999999" pd100)
                     99999999999 _ _) _); concrete.
Defined.

Lemma get_ledger_listing_witness :
  exists rows,
    prun clock_by_id (get_ledger "1") pd100 =
      (inr {| l_status := 200; l_body := LEntries 1 rows |}, pd100,
       [SelectAccountId 1; SelectEntries 1]) /\
    Permutation rows
      (map (to_row clock_by_id) (entries_of_account (ledger_entries (tbl (base pd100))) 1)) /\
    Sorted (fun x y => row_le x y = true) rows.
Proof.
  apply (get_ledger_listing clock_by_id "1" pd100 1); concrete.
Defined.

Lemma ledger_matches_balance_witness :
  exists rows r,
    prun clock_by_id (get_ledger "1") pd100 =
      (inr {| l_status := 200; l_body := LEntries 1 rows |}, pd100,
       [SelectAccountId 1; SelectEntries 1]) /\
    resp_of (handle (get_account "1") (base pd100)) = Some r /\ status r = 200 /\
    In ("balance"%string, RVNumeric (rows_balance rows)) (body r).
Proof.
  apply (ledger_matches_balance clock_by_id "1" pd100 1); concrete.
Defined.

End Concrete.
